(** * checkout-js: the payment extension and the checkout step controller

  A shallow embedding of
  - [custom-payment] (classes [CustomPaymentMethod], [DellPaymentMethod]),
  - [assets/js/checkout.js] (registration of the 'custom-payment' hooks),
  - the Express router of the payment extension,
  - the step navigation and the Place Order handler of [Checkout.tsx].

  JavaScript values are a small algebraic type; effects (console, HTTP,
  analytics, navigation) are recorded in a trace; exceptions are explicit
  completions; mutable component and instance state is passed explicitly. *)

From Stdlib Require Import ZArith QArith_base List Ascii String Bool Lia DecimalString.
Import ListNotations.
#[local] Set Warnings "-register-all".
Local Close Scope Q_scope.
Local Open Scope string_scope.

(* ===================================================================== *)
(** ** JavaScript values *)
(* ===================================================================== *)

Module Js.

(** Plain data as it travels through the program: JSON bodies, DOM input
    values, component props.  Numbers are rationals plus [NaN]. *)
Inductive value : Type :=
| Undefined
| Null
| Bool (b : bool)
| Num (q : Q)
| NaN
| Str (s : string)
| Arr (items : list value)
| Obj (fields : list (string * value)).

(** An [Error] object: its [name] and its [message]. *)
Record error : Type := mkError { name : string; message : string }.

Definition Error (msg : string) : error := mkError "Error" msg.
Definition TypeError (msg : string) : error := mkError "TypeError" msg.

(** The outcome of evaluating a statement or awaiting a promise. *)
Inductive completion (A : Type) : Type :=
| Normal (a : A)
| Throw (e : error).
Arguments Normal {A} a.
Arguments Throw {A} e.

(** ToBoolean. *)
Definition truthy (v : value) : bool :=
  match v with
  | Undefined | Null | NaN => false
  | Bool b => b
  | Num q => negb (Qnum q =? 0)%Z
  | Str s => negb (s =? "")
  | Arr _ | Obj _ => true
  end.

Definition falsy (v : value) : bool := negb (truthy v).

Definition nullish (v : value) : bool :=
  match v with Undefined | Null => true | _ => false end.

(** Own property of an object: the first binding is taken, since neither
    the object literals of this program nor a parsed JSON body repeat a
    key. *)
Fixpoint lookup (k : string) (fs : list (string * value)) : option value :=
  match fs with
  | [] => None
  | (k', v) :: r => if k' =? k then Some v else lookup k r
  end.

Definition len {A} (l : list A) : Q := inject_Z (Z.of_nat (List.length l)).

(** [v.k] for a value that is neither [null] nor [undefined]. *)
Definition member (v : value) (k : string) : value :=
  match v with
  | Obj fs => match lookup k fs with Some w => w | None => Undefined end
  | Str s => if k =? "length" then Num (inject_Z (Z.of_nat (String.length s)))
             else Undefined
  | Arr l => if k =? "length" then Num (len l) else Undefined
  | _ => Undefined
  end.

(** [v.k]: reading a property of [null] or [undefined] throws. *)
Definition get (v : value) (k : string) : completion value :=
  if nullish v
  then Throw (TypeError ("Cannot read properties of " ++
                         (match v with Null => "null" | _ => "undefined" end) ++
                         " (reading '" ++ k ++ "')"))
  else Normal (member v k).

(** [v?.k]. *)
Definition get_opt (v : value) (k : string) : value :=
  if nullish v then Undefined else member v k.

(** [v > 0] for the operands this program compares: numbers and booleans
    convert to a number, [undefined] and [NaN] compare false.  Strings,
    arrays and objects would go through ToPrimitive, which is not modelled:
    the only operand compared in the sources is a [length]. *)
Definition gt_zero (v : value) : bool :=
  match v with
  | Num q => (0 <? Qnum q)%Z
  | Bool b => b
  | _ => false
  end.

(** [a || b] *)
Definition or (a b : value) : value := if truthy a then a else b.

(** An integer in a string context: its decimal digits. *)
Definition decimal (z : Z) : string := NilZero.string_of_int (Z.to_int z).

End Js.

#[global] Arguments Js.Normal {A} a.
#[global] Arguments Js.Throw {A} e.

(* ===================================================================== *)
(** ** Effects *)
(* ===================================================================== *)

(** Modelled from the spec: the type of a checkout step.
  [CheckoutStepType.ts] is not among the sources; the spec lists the
  customer, shipping, billing and payment steps and [Checkout.tsx] refers to
  exactly these four members. *)
Inductive CheckoutStepType : Type := Billing | Customer | Payment | Shipping.

Definition CheckoutStepType_eqb (a b : CheckoutStepType) : bool :=
match a, b with
| Billing, Billing | Customer, Customer
| Payment, Payment | Shipping, Shipping => true
| _, _ => false
end.

(** What the code does to the world outside its own state. *)
Inductive Event : Type :=
| ConsoleLog (args : list Js.value)
| ConsoleError (args : list Js.value)
| HttpPost (url : string) (body : Js.value)          (* axios.post *)
| LocationAssign (href : Js.value)                   (* window.location.href = ... *)
| FormSubmit (action : string) (fields : Js.value)   (* form.submit() *)
| ClearError (e : Js.error)                          (* props.clearError *)
| TrackStepCompleted (t : CheckoutStepType).         (* analyticsTracker *)

Definition Trace := list Event.

(** How a promise settles. *)
Inductive settled (A : Type) : Type :=
| Resolved (a : A)
| Rejected (e : Js.error).
Arguments Resolved {A} a.
Arguments Rejected {A} e.

(** The DOM as the payment classes see it: [document.querySelector] and the
  [value] of the element found ([None] for an element that has none). *)
Record Element : Type := { elem_value : option string }.
Definition Document := string -> option Element.

Definition value_of (e : Element) : Js.value :=
match elem_value e with Some s => Js.Str s | None => Js.Undefined end.

(* ===================================================================== *)
(** ** custom-payment: [CustomPaymentMethod] *)
(* ===================================================================== *)

Module CustomPaymentMethod.

Record State : Type := mkState {
  method : string;
  customerId : Js.value;
  paymentData : Js.value
}.

Record t : Type := mk {
  options : Js.value;
  state : State;
  clientId : string
}.

Definition set_paymentData (v : Js.value) (this : t) : t :=
  mk (options this)
     (mkState (method (state this)) (customerId (state this)) v)
     (clientId this).

(** [constructor(options)] *)
Definition new (opts : Js.value) : t :=
  mk (Js.or opts (Js.Obj []))
     (mkState "custom-payment" Js.Null Js.Null)
     "YOUR_APP_CLIENT_ID".

(** The click listener installed by [initializePayment] on
    [#submit-custom-payment]. *)
Definition onSubmitClick (document : Document) (this : t)
  : Trace * Js.completion t :=
  match document "#payment-details" with
  | None => ([], Js.Throw (Js.TypeError
              "Cannot read properties of null (reading 'value')"))
  | Some el =>
      let this' := set_paymentData (value_of el) this in
      ([ConsoleLog [Js.Str "Payment data captured:"; paymentData (state this')]],
       Js.Normal this')
  end.

Definition validation_failed : Js.error :=
  Js.Error "Payment validation failed. Please enter valid payment details.".

(** [validatePayment()]: the executor runs at once. *)
Definition validatePayment (this : t) : Trace * t * settled unit :=
  ([ConsoleLog [Js.Str "Validating payment..."]],
   this,
   if Js.truthy (paymentData (state this)) &&
      Js.gt_zero (Js.member (paymentData (state this)) "length")
   then Resolved tt
   else Rejected validation_failed).

Definition submission_failed : Js.error :=
  Js.Error "Payment submission failed. No payment data provided.".

(** The callback that [submitPayment] hands to [setTimeout]: it reads
    [this.state] when the timer fires. *)
Definition submitPayment_onTimeout (this : t) : Trace * settled Js.value :=
  if Js.truthy (paymentData (state this))
  then ([ConsoleLog [Js.Str "Payment submitted successfully:";
                     paymentData (state this)]],
        Resolved (Js.Obj [("type", Js.Str "custom-payment");
                          ("paymentData", paymentData (state this))]))
  else ([], Rejected submission_failed).

(** A promise of this class: settled by its executor, or settled by a timer
  callback that reads the instance when the timer fires. *)
Inductive promise (A : Type) : Type :=
| Settled (s : settled A)
| AfterTimeout (ms : Z) (callback : t -> Trace * settled A).
Arguments Settled {A} s.
Arguments AfterTimeout {A} ms callback.

(** [submitPayment()]: logs and arms a timer of 1000 ms. *)
Definition submitPayment (this : t) : Trace * promise Js.value :=
([ConsoleLog [Js.Str "Submitting payment..."]],
 AfterTimeout 1000 submitPayment_onTimeout).

(** Firing the timer of a promise on the instance as it is by then. *)
Definition fire {A} (p : promise A) (this_then : t) : Trace * settled A :=
match p with
| Settled s => ([], s)
| AfterTimeout _ callback => callback this_then
end.

(** The instances the class itself produces: built by the constructor and
    changed only by the click listener. *)
Inductive Instance : t -> Prop :=
| Inst_new : forall opts, Instance (new opts)
| Inst_click : forall document this tr this',
    Instance this ->
    onSubmitClick document this = (tr, Js.Normal this') ->
    Instance this'.

Definition text_or_unset (v : Js.value) : Prop :=
  match v with
  | Js.Null | Js.Undefined | Js.Str _ => True
  | _ => False
  end.

End CustomPaymentMethod.

(* ===================================================================== *)
(** ** custom-payment: [DellPaymentMethod] *)
(* ===================================================================== *)

Module DellPaymentMethod.

Record State : Type := mkState {
  method : string;
  customerId : Js.value;
  paymentData : Js.value;
  methodId : string;
  gateway : string
}.

Record t : Type := mk {
  options : Js.value;
  state : State
}.

Definition set_paymentData (v : Js.value) (this : t) : t :=
  mk (options this)
     (mkState (method (state this)) (customerId (state this)) v
              (methodId (state this)) (gateway (state this))).

(** [constructor(options)] *)
Definition new (opts : Js.value) : t :=
  mk (Js.or opts (Js.Obj []))
     (mkState "dell-payment" Js.Null Js.Null "dell_payment" "dell_payment_gateway").

(** [document.querySelector(sel)?.value] *)
Definition entered (document : Document) (sel : string) : Js.value :=
  match document sel with
  | None => Js.Undefined
  | Some el => value_of el
  end.

Definition validation_failed : Js.error :=
  Js.Error "Please enter both Dell Account Number and PO Number".

(** [validatePayment()] *)
Definition validatePayment (document : Document) (this : t) : t * settled unit :=
  let accountNumber := entered document "#dell-account-number" in
  let poNumber := entered document "#dell-purchase-order" in
  if Js.truthy accountNumber && Js.truthy poNumber
  then (set_paymentData (Js.Obj [("accountNumber", accountNumber);
                                 ("poNumber", poNumber)]) this,
        Resolved tt)
  else (this, Rejected validation_failed).

Definition submission_failed : Js.error :=
  Js.Error "Payment submission failed. No payment data provided.".

(** [submitPayment()] *)
Definition submitPayment (this : t) : settled Js.value :=
  let pd := paymentData (state this) in
  if Js.truthy pd
  then Resolved
         (Js.Obj [("methodId", Js.Str (methodId (state this)));
                  ("paymentData",
                   Js.Obj [("formattedPayload",
                            Js.Obj [("method", Js.Str (method (state this)));
                                    ("dell_account_number", Js.member pd "accountNumber");
                                    ("purchase_order_number", Js.member pd "poNumber")])])])
  else Rejected submission_failed.

(** The instances the class itself produces: built by the constructor and
    changed only by [validatePayment]. *)
Inductive Instance : t -> Prop :=
| Inst_new : forall opts, Instance (new opts)
| Inst_validate : forall document this,
    Instance this -> Instance (fst (validatePayment document this)).

End DellPaymentMethod.

(* ===================================================================== *)
(** ** assets/js/checkout.js: registration of 'custom-payment' *)
(* ===================================================================== *)

Module CheckoutJs.

(** The hooks handed to [window.checkout.registerPaymentMethod].  The
    [initializePayment] hook builds DOM nodes and is outside this model. *)
Record PaymentMethodHooks : Type := mkHooks {
  id : string;
  type : string;
  validatePayment : Js.value -> Trace * settled unit;
  submitPayment : Js.value -> Trace * settled Js.value
}.

(** [validatePayment: (payment) => { ... }] *)
Definition validatePayment_hook (payment : Js.value) : Trace * settled unit :=
  let customPayment := CustomPaymentMethod.new Js.Undefined in
  let '(tr, _, r) := CustomPaymentMethod.validatePayment customPayment in
  (tr, r).

(** [submitPayment: (payment) => { ... }].  The instance is local to the
    hook: nothing else holds it, so the timer finds it as it was built. *)
Definition submitPayment_hook (payment : Js.value) : Trace * settled Js.value :=
  let customPayment := CustomPaymentMethod.new Js.Undefined in
  let '(tr, p) := CustomPaymentMethod.submitPayment customPayment in
  let '(tr', r) := CustomPaymentMethod.fire p customPayment in
  ((tr ++ tr')%list, r).

Definition customPayment : PaymentMethodHooks :=
  mkHooks "custom-payment" "custom-payment" validatePayment_hook submitPayment_hook.

(** The script body: [window.checkout] is the list of methods registered so
    far, or absent when the SDK is not loaded. *)
Definition main (window_checkout : option (list PaymentMethodHooks))
  : Trace * option (list PaymentMethodHooks) :=
  match window_checkout with
  | None =>
      ([ConsoleError [Js.Str
         "Checkout object not found. Ensure Checkout SDK is loaded properly."]],
       None)
  | Some registered =>
      ([ConsoleLog [Js.Str "Custom payment method registered successfully."]],
       Some (registered ++ [customPayment])%list)
  end.

End CheckoutJs.

(* ===================================================================== *)
(** ** The Express router of the payment extension *)
(* ===================================================================== *)

Module Server.

Inductive Method : Type := GET | POST.

Record Request : Type := mkRequest {
  query : Js.value;
  body : Js.value
}.

Inductive Payload : Type :=
| Text (s : string)        (* res.send *)
| Json (v : Js.value).     (* res.json *)

(** The response object: the status code set so far and what was sent. *)
Record Response : Type := mkResponse {
  statusCode : Z;
  sent : option Payload
}.

Definition fresh : Response := mkResponse 200 None.

(** What a handler cannot compute by itself. *)
Record Env : Type := mkEnv {
  now : Z;                                              (* Date.now() *)
  isoNow : string;                                      (* new Date().toISOString() *)
  processPayment : Js.value -> Js.completion Js.value   (* awaited; not defined in the file *)
}.

(** Handler code: it changes the response and may throw. *)
Definition H (A : Type) : Type := Response -> Response * Js.completion A.

Definition ret {A} (a : A) : H A := fun res => (res, Js.Normal a).

Definition bind {A B} (m : H A) (k : A -> H B) : H B :=
  fun res =>
    match m res with
    | (res', Js.Normal a) => k a res'
    | (res', Js.Throw e) => (res', Js.Throw e)
    end.

Definition throw {A} (e : Js.error) : H A := fun res => (res, Js.Throw e).

Definition eval {A} (c : Js.completion A) : H A := fun res => (res, c).

Definition try_catch {A} (m : H A) (handler : Js.error -> H A) : H A :=
  fun res =>
    match m res with
    | (res', Js.Throw e) => handler e res'
    | done => done
    end.

Declare Scope handler_scope.
Delimit Scope handler_scope with handler.
Notation "x <- m ;; k" := (bind m (fun x => k))
  (at level 61, m at next level, right associativity) : handler_scope.
Notation "m ;; k" := (bind m (fun _ => k))
  (at level 61, right associativity) : handler_scope.
Local Open Scope handler_scope.

Definition headers_sent : Js.error :=
  Js.Error "Cannot set headers after they are sent to the client".

(** [res.status(code)] *)
Definition status (code : Z) : H unit :=
  fun res => (mkResponse code (sent res), Js.Normal tt).

Definition deliver (p : Payload) : H unit :=
  fun res =>
    match sent res with
    | None => (mkResponse (statusCode res) (Some p), Js.Normal tt)
    | Some _ => (res, Js.Throw headers_sent)
    end.

(** [res.json(v)] and [res.send(s)] *)
Definition json (v : Js.value) : H unit := deliver (Json v).
Definition send (s : string) : H unit := deliver (Text s).

(** [const { first, ... } = source]: destructuring [null] or [undefined]
    throws. *)
Definition destructure (v : Js.value) (first source : string)
  : Js.completion Js.value :=
  if Js.nullish v
  then Js.Throw (Js.TypeError
                   ("Cannot destructure property '" ++ first ++ "' of '" ++
                    source ++ "' as it is " ++
                    (match v with Js.Null => "null" | _ => "undefined" end) ++ "."))
  else Js.Normal v.

(** [router.get('/auth/callback', ...)] *)
Definition auth_callback (env : Env) (req : Request) : H unit :=
  try_catch
    (q <- eval (destructure (query req) "code" "req.query") ;;
     let code := Js.member q "code" in
     let scope := Js.member q "scope" in
     let context := Js.member q "context" in
     status 200 ;; send "Authorization successful")
    (fun error =>
       status 400 ;; json (Js.Obj [("error", Js.Str (Js.message error))])).

(** [router.post('/process-payment', ...)] *)
Definition process_payment (env : Env) (req : Request) : H unit :=
  try_catch
    (b <- eval (destructure (body req) "payment_data" "req.body") ;;
     let payment_data := Js.member b "payment_data" in
     let order_id := Js.member b "order_id" in
     let context := Js.member b "context" in
     if Js.falsy payment_data || Js.falsy order_id
     then throw (Js.Error "Missing required fields")
     else
       transaction <- eval (processPayment env payment_data) ;;
       transaction_id <- eval (Js.get transaction "id") ;;
       amount <- eval (Js.get payment_data "amount") ;;
       currency <- eval (Js.get payment_data "currency") ;;
       json (Js.Obj [("status", Js.Str "success");
                     ("transaction_id", transaction_id);
                     ("amount", amount);
                     ("currency", currency);
                     ("timestamp", Js.Str (isoNow env))]))
    (fun error =>
       status 400 ;;
       json (Js.Obj [("status", Js.Str "error");
                     ("message", Js.Str (Js.message error))])).

(** [router.post('/process-payment-test', ...)] *)
Definition process_payment_test (env : Env) (req : Request) : H unit :=
  let transaction_id := Js.Str ("TEST_" ++ Js.decimal (now env)) in
  payment_data <- eval (Js.get (body req) "payment_data") ;;
  amount <- eval (Js.get payment_data "amount") ;;
  payment_data' <- eval (Js.get (body req) "payment_data") ;;
  currency <- eval (Js.get payment_data' "currency") ;;
  json (Js.Obj [("status", Js.Str "success");
                ("transaction_id", transaction_id);
                ("amount", amount);
                ("currency", currency);
                ("timestamp", Js.Str (isoNow env))]).

(** A registered route. *)
Record Route : Type := mkRoute {
  route_method : Method;
  route_path : string;
  route_handler : Env -> Request -> H unit
}.

(** [express.Router()], [router.get] and [router.post]: routes are kept in
    the order of registration. *)
Definition Router : list Route := [].

Definition router_get (path : string) (h : Env -> Request -> H unit)
  (r : list Route) : list Route := (r ++ [mkRoute GET path h])%list.

Definition router_post (path : string) (h : Env -> Request -> H unit)
  (r : list Route) : list Route := (r ++ [mkRoute POST path h])%list.

(** [module.exports = router] *)
Definition router : list Route :=
  router_post "/process-payment-test" process_payment_test
    (router_post "/process-payment" process_payment
       (router_get "/auth/callback" auth_callback Router)).

Definition Method_eqb (a b : Method) : bool :=
  match a, b with GET, GET | POST, POST => true | _, _ => false end.

(** The routes that answer payment requests: the POST endpoints. *)
Definition payment_endpoints (r : list Route) : list Route :=
  filter (fun rt => Method_eqb (route_method rt) POST) r.

(** Running a handler on a fresh response. *)
Definition respond (h : Env -> Request -> H unit) (env : Env) (req : Request)
  : Response * Js.completion unit := h env req fresh.

End Server.

(* ===================================================================== *)
(** ** Checkout.tsx: the [Checkout] component *)
(* ===================================================================== *)

Module Checkout.

(** Modelled from the spec: the status of a step as [props.steps] carries
    it.  [CheckoutStepStatus.ts] is not among the sources; these are the
    fields the navigation code reads. *)
Record CheckoutStepStatus : Type := mkStep {
  type : CheckoutStepType;
  isActive : bool
}.

Record CheckoutState : Type := mkState {
  activeStepType : option CheckoutStepType;
  isBillingSameAsShipping : bool;
  customerViewType : option Js.value;
  defaultStepType : option CheckoutStepType;
  error : option Js.error;
  flashMessages : option (list Js.value);
  isMultiShippingMode : bool;
  isCartEmpty : bool;
  isRedirecting : bool;
  hasSelectedShippingOptions : bool;
  isSubscribed : bool;
  buttonConfigs : list Js.value
}.

(** [state: CheckoutState = { ... }] *)
Definition initial : CheckoutState :=
  mkState None true None None None None false false false false false [].

(** The SDK types, with the fields the Place Order handler reads. *)
Record Currency : Type := mkCurrency { code : string }.

Record PhysicalItem : Type := mkItem {
  name : string;
  quantity : Q;
  extendedListPrice : Q
}.

Record LineItems : Type := mkLineItems { physicalItems : list PhysicalItem }.

Record Cart : Type := mkCart {
  id : string;
  currency : Currency;
  cartAmount : Q;
  lineItems : LineItems
}.

Record Address : Type := mkAddress {
  firstName : string;
  lastName : string;
  address1 : string;
  address2 : string;
  city : string;
  stateOrProvinceCode : string;
  countryCode : string;
  postalCode : string;
  phone : string
}.

(** The props the modelled methods read; [clearError] and
    [analyticsTracker.trackStepCompleted] appear as events. *)
Record Props : Type := mkProps {
  billingAddress : option Address;
  cart : option Cart;
  consignments : option (list Js.value);
  props_error : option Js.error;
  steps : list CheckoutStepStatus
}.

(** The browser and the network around the component. *)
Record Env : Type := mkEnv {
  origin : string;                                          (* window.location.origin *)
  now : Z;                                                  (* Date.now() *)
  toString : Q -> string;                                   (* Number.prototype.toString *)
  axios_post : string -> Js.value -> Js.completion Js.value (* awaited axios.post *)
}.

(** Component code: it reads and sets the state, acts on the world and may
    throw. *)
Definition C (A : Type) : Type :=
  CheckoutState -> Trace * CheckoutState * Js.completion A.

Definition ret {A} (a : A) : C A := fun st => ([], st, Js.Normal a).

Definition bind {A B} (m : C A) (k : A -> C B) : C B :=
  fun st =>
    match m st with
    | (tr, st', Js.Normal a) =>
        let '(tr', st'', r) := k a st' in ((tr ++ tr')%list, st'', r)
    | (tr, st', Js.Throw e) => (tr, st', Js.Throw e)
    end.

Definition eval {A} (c : Js.completion A) : C A := fun st => ([], st, c).

Definition emit (e : Event) : C unit := fun st => ([e], st, Js.Normal tt).

Definition try_catch {A} (m : C A) (handler : Js.error -> C A) : C A :=
  fun st =>
    match m st with
    | (tr, st', Js.Throw e) =>
        let '(tr', st'', r) := handler e st' in ((tr ++ tr')%list, st'', r)
    | done => done
    end.

Definition getState : C CheckoutState := fun st => ([], st, Js.Normal st).

(** [this.setState(patch)]: the patch is merged into the state.  A
    computation describes one run of a handler from the committed state and
    yields the state committed after it. *)
Definition setState (patch : CheckoutState -> CheckoutState) : C unit :=
  fun st => ([], patch st, Js.Normal tt).

Declare Scope component_scope.
Delimit Scope component_scope with component.
Notation "x <- m ;; k" := (bind m (fun x => k))
  (at level 61, m at next level, right associativity) : component_scope.
Notation "m ;; k" := (bind m (fun _ => k))
  (at level 61, right associativity) : component_scope.
Local Open Scope component_scope.

Definition set_defaultStepType (t : CheckoutStepType) (st : CheckoutState)
  : CheckoutState :=
  mkState (activeStepType st) (isBillingSameAsShipping st) (customerViewType st)
          (Some t) (error st) (flashMessages st) (isMultiShippingMode st)
          (isCartEmpty st) (isRedirecting st) (hasSelectedShippingOptions st)
          (isSubscribed st) (buttonConfigs st).

Definition set_activeStepType (t : CheckoutStepType) (st : CheckoutState)
  : CheckoutState :=
  mkState (Some t) (isBillingSameAsShipping st) (customerViewType st)
          (defaultStepType st) (error st) (flashMessages st) (isMultiShippingMode st)
          (isCartEmpty st) (isRedirecting st) (hasSelectedShippingOptions st)
          (isSubscribed st) (buttonConfigs st).

(** lodash [find(steps, { type })] *)
Definition find_type (t : CheckoutStepType) (l : list CheckoutStepStatus)
  : option CheckoutStepStatus :=
  List.find (fun s => CheckoutStepType_eqb (type s) t) l.

(** lodash [findIndex(steps, { isActive: true })]: [-1] when there is none. *)
Fixpoint findIndex_active (l : list CheckoutStepStatus) : Z :=
  match l with
  | [] => -1
  | s :: r =>
      if isActive s then 0
      else let i := findIndex_active r in
           if (i <? 0)%Z then -1 else (i + 1)%Z
  end.

(** [steps[i]]: [undefined] out of range. *)
Definition at_index (l : list CheckoutStepStatus) (i : Z)
  : option CheckoutStepStatus :=
  if (i <? 0)%Z then None else nth_error l (Z.to_nat i).

(** [options?: { isDefault?: boolean }] *)
Record NavigateOptions : Type := mkOptions { isDefault : option bool }.

(** [options && options.isDefault], as a condition. *)
Definition wants_default (options : option NavigateOptions) : bool :=
  match options with
  | Some o => match isDefault o with Some b => b | None => false end
  | None => false
  end.

(** [activeStepType === step.type] *)
Definition same_type (a : option CheckoutStepType) (t : CheckoutStepType) : bool :=
  match a with
  | Some a' => CheckoutStepType_eqb a' t
  | None => false
  end.

(** [navigateToStep(type, options)] *)
Definition navigateToStep (props : Props) (t : CheckoutStepType)
  (options : option NavigateOptions) : C unit :=
  st <- getState ;;
  match find_type t (steps props) with
  | None => ret tt
  | Some step =>
      if same_type (activeStepType st) (type step) then ret tt
      else
        (if wants_default options
         then setState (set_defaultStepType (type step))
         else setState (set_activeStepType (type step))) ;;
        match props_error props with
        | Some error => emit (ClearError error)
        | None => ret tt
        end
  end.

(** [navigateToNextIncompleteStep(options)] *)
Definition navigateToNextIncompleteStep (props : Props)
  (options : option NavigateOptions) : C unit :=
  let activeStepIndex := findIndex_active (steps props) in
  let activeStep :=
    if (0 <=? activeStepIndex)%Z then at_index (steps props) activeStepIndex
    else None in
  match activeStep with
  | None => ret tt
  | Some activeStep =>
      let previousStep := at_index (steps props) (Z.max (activeStepIndex - 1) 0) in
      match previousStep with
      | Some previousStep => emit (TrackStepCompleted (type previousStep))
      | None => ret tt
      end ;;
      navigateToStep props (type activeStep) options
  end.

(** [render()]: the error modal is there exactly when [state.error] is set. *)
Definition errorModal (st : CheckoutState) : option Js.error := error st.

Definition payments_url : string := "http://127.0.0.1:3000/api/v1/payments".

(** The body posted by [logOrderDetailsAndNavigate]. *)
Definition requestBody (env : Env) (cart : Cart) (billingAddress : Address)
  : Js.value :=
  Js.Obj
    [("address",
      Js.Obj [("address1", Js.Str (address1 billingAddress));
              ("address2", Js.or (Js.Str (address2 billingAddress)) (Js.Str ""));
              ("city", Js.Str (city billingAddress));
              ("state", Js.Str (stateOrProvinceCode billingAddress));
              ("country", Js.Str (countryCode billingAddress));
              ("zipCode", Js.Str (postalCode billingAddress));
              ("phoneNumber", Js.or (Js.Str (phone billingAddress)) (Js.Str "N/A"))]);
     ("buid", Js.Str "11");
     ("country", Js.Str "US");
     ("region", Js.Str "US");
     ("currency", Js.Str (code (currency cart)));
     ("successUrl", Js.Str (origin env ++ "/checkout/order-confirmation"));
     ("cancelUrl", Js.Str (origin env ++ "/checkout"));
     ("clientSessionId", Js.Str (id cart));
     ("orderDescription",
      Js.Str ("Order for " ++ firstName billingAddress ++ " " ++ lastName billingAddress));
     ("amount", Js.Str (toString env (cartAmount cart)));
     ("segment", Js.Str "dhs");
     ("language", Js.Str "EN");
     ("salesChannel", Js.Str "US_19");
     ("companyNumber", Js.Str "14");
     ("products",
      Js.Arr (map (fun item =>
                     Js.Obj [("productDescription", Js.Str (name item));
                             ("quantity", Js.Str (toString env (quantity item)));
                             ("productAmount",
                              Js.Str (toString env (extendedListPrice item)))])
                  (physicalItems (lineItems cart))));
     ("paymentMode", Js.Str "Initial");
     ("orderNumber", Js.Str (Js.decimal (now env) ++ ".11"))].

(** [await axios.post(url, body)] *)
Definition post (env : Env) (url : string) (body : Js.value) : C Js.value :=
  emit (HttpPost url body) ;; eval (axios_post env url body).

Definition missing_order_details : C unit :=
  emit (ConsoleError [Js.Str "Missing order details"]).

(** [logOrderDetailsAndNavigate()] *)
Definition logOrderDetailsAndNavigate (env : Env) (props : Props) : C unit :=
  match cart props, billingAddress props, consignments props with
  | Some cart, Some billingAddress, Some consignments =>
      if (List.length consignments =? 0)%nat then missing_order_details
      else
        let requestBody := requestBody env cart billingAddress in
        try_catch
          (response <- post env payments_url requestBody ;;
           data <- eval (Js.get response "data") ;;
           redirectUrl <- (if Js.truthy data then eval (Js.get data "redirectUrl")
                           else ret data) ;;
           if Js.truthy redirectUrl
           then
             emit (ConsoleLog [Js.Str "Redirecting to payment portal:"; redirectUrl]) ;;
             emit (LocationAssign redirectUrl)
           else
             emit (ConsoleError [Js.Str "Unexpected response structure:"; data]))
          (fun error => ret tt)
  | _, _, _ => missing_order_details
  end.

(** [onClick={() => this.logOrderDetailsAndNavigate()}] of the Place Order
    button of the payment step. *)
Definition placeOrder_onClick (env : Env) (props : Props) : C unit :=
  logOrderDetailsAndNavigate env props.

End Checkout.

(* ===================================================================== *)
(** ** Shapes named in the statements *)
(* ===================================================================== *)

(** The object a Dell [submitPayment] is expected to resolve with, for a
  stored account and order number. *)
Definition dell_payload (accountNumber poNumber : Js.value) : Js.value :=
  Js.Obj [("methodId", Js.Str "dell_payment");
          ("paymentData",
           Js.Obj [("formattedPayload",
                    Js.Obj [("method", Js.Str "dell-payment");
                            ("dell_account_number", accountNumber);
                            ("purchase_order_number", poNumber)])])].

(** The pair a Dell [validatePayment] is expected to store. *)
Definition dell_stored (accountNumber poNumber : Js.value) : Js.value :=
  Js.Obj [("accountNumber", accountNumber); ("poNumber", poNumber)].

(** The JSON error body of the payment endpoint. *)
Definition error_body (msg : string) : Js.value :=
  Js.Obj [("status", Js.Str "error"); ("message", Js.Str msg)].

(** The JSON success body of the payment endpoints. *)
Definition success_body (transaction_id amount currency : Js.value)
  (timestamp : string) : Js.value :=
  Js.Obj [("status", Js.Str "success");
          ("transaction_id", transaction_id);
          ("amount", amount);
          ("currency", currency);
          ("timestamp", Js.Str timestamp)].

(** A response with HTTP 400 and a JSON body of status 'error'. *)
Definition error_400 (res : Server.Response) : Prop :=
  exists msg, res = Server.mkResponse 400 (Some (Server.Json (error_body msg))).

(** The request body has no property [k]: [body?.k] is [undefined]. *)
Definition lacks (body : Js.value) (k : string) : Prop :=
  Js.get_opt body k = Js.Undefined.

(** The awaited call of [processPayment] throws. *)
Definition call_throws (env : Server.Env) (payment_data : Js.value) : Prop :=
  exists e, Server.processPayment env payment_data = Js.Throw e.

(** Payment processing throws: the awaited call throws, or it yields no
  transaction object and reading [transaction.id] throws. *)
Definition processing_throws (env : Server.Env) (payment_data : Js.value) : Prop :=
  match Server.processPayment env payment_data with
  | Js.Throw _ => True
  | Js.Normal transaction => Js.nullish transaction = true
  end.

(** The routes of a router, as method and path. *)
Definition signatures (r : list Server.Route) : list (Server.Method * string) :=
  map (fun rt => (Server.route_method rt, Server.route_path rt)) r.

(** Every field of the component state other than the two step types is
  the same in [st] and [st']. *)
Definition same_besides_step_types (st st' : Checkout.CheckoutState) : Prop :=
  Checkout.isBillingSameAsShipping st' = Checkout.isBillingSameAsShipping st /\
  Checkout.customerViewType st' = Checkout.customerViewType st /\
  Checkout.error st' = Checkout.error st /\
  Checkout.flashMessages st' = Checkout.flashMessages st /\
  Checkout.isMultiShippingMode st' = Checkout.isMultiShippingMode st /\
  Checkout.isCartEmpty st' = Checkout.isCartEmpty st /\
  Checkout.isRedirecting st' = Checkout.isRedirecting st /\
  Checkout.hasSelectedShippingOptions st' = Checkout.hasSelectedShippingOptions st /\
  Checkout.isSubscribed st' = Checkout.isSubscribed st /\
  Checkout.buttonConfigs st' = Checkout.buttonConfigs st.

(** No step of the list has the type [t]. *)
Definition no_step_of_type (t : CheckoutStepType)
  (l : list Checkout.CheckoutStepStatus) : Prop :=
  forall s, In s l -> Checkout.type s <> t.

(** No step of the list is marked active. *)
Definition none_active (l : list Checkout.CheckoutStepStatus) : Prop :=
  forall s, In s l -> Checkout.isActive s = false.

(** The step at position [i] is the first one marked active. *)
Definition first_active (l : list Checkout.CheckoutStepStatus) (i : nat)
  (s : Checkout.CheckoutStepStatus) : Prop :=
  nth_error l i = Some s /\ Checkout.isActive s = true /\
  forall j s', (j < i)%nat -> nth_error l j = Some s' -> Checkout.isActive s' = false.

(** [trackStepCompleted] is called with the type of the step right before
  the active one. *)
Definition tracks_preceding_step (l : list Checkout.CheckoutStepStatus)
  (tr : Trace) : Prop :=
  exists prev,
    Checkout.at_index l (Checkout.findIndex_active l - 1) = Some prev /\
    In (TrackStepCompleted (Checkout.type prev)) tr.

(** The trace shows a submitted form, a navigation, a request. *)
Definition submits_form (tr : Trace) : Prop :=
  exists action fields, In (FormSubmit action fields) tr.

Definition navigates (tr : Trace) : Prop :=
  exists href, In (LocationAssign href) tr.

Definition requests (tr : Trace) : Prop :=
  exists url body, In (HttpPost url body) tr.

(** The order details that [logOrderDetailsAndNavigate] insists on are not
  all there. *)
Definition order_details_missing (props : Checkout.Props) : Prop :=
  Checkout.cart props = None \/ Checkout.billingAddress props = None \/
  Checkout.consignments props = None \/ Checkout.consignments props = Some [].

(** The awaited request fails, or its result has no [data] to read. *)
Definition request_or_check_throws (env : Checkout.Env) (body : Js.value) : Prop :=
  match Checkout.axios_post env Checkout.payments_url body with
  | Js.Throw _ => True
  | Js.Normal response => Js.nullish response = true
  end.

(** The redirect URL carried by a response: [data && data.redirectUrl]. *)
Definition redirectUrl_of (response : Js.value) : Js.value :=
  let data := Js.member response "data" in
  if Js.truthy data then Js.member data "redirectUrl" else data.

(* ===================================================================== *)
(** ** Sample inputs *)
(* ===================================================================== *)

Module Samples.

(** A page whose payment field holds "4111". *)
Definition typed_4111 : Document :=
  fun sel => if sel =? "#payment-details"
             then Some {| elem_value := Some "4111" |} else None.

(** The instance after the shopper typed "4111" and clicked Submit. *)
Definition custom_4111 : CustomPaymentMethod.t :=
  CustomPaymentMethod.set_paymentData (Js.Str "4111")
    (CustomPaymentMethod.new Js.Undefined).

(** A page with both Dell fields filled in. *)
Definition dell_form : Document :=
  fun sel =>
    if sel =? "#dell-account-number" then Some {| elem_value := Some "ACC-7" |}
    else if sel =? "#dell-purchase-order" then Some {| elem_value := Some "PO-42" |}
    else None.

(** A clock and a payment provider that accepts every payment. *)
Definition accepting : Server.Env :=
  Server.mkEnv 1700000000000 "2023-11-14T22:13:20.000Z"
    (fun _ => Js.Normal (Js.Obj [("id", Js.Str "tx_1")])).

Definition ten_dollars : Js.value :=
  Js.Obj [("amount", Js.Num (inject_Z 10)); ("currency", Js.Str "USD")].

(** A payment request whose order id is the number 0. *)
Definition order_zero : Server.Request :=
  Server.mkRequest (Js.Obj [])
    (Js.Obj [("payment_data", ten_dollars); ("order_id", Js.Num (inject_Z 0))]).

(** A payment request with an order id. *)
Definition order_seven : Server.Request :=
  Server.mkRequest (Js.Obj [])
    (Js.Obj [("payment_data", ten_dollars); ("order_id", Js.Num (inject_Z 7))]).

(** A request that carries an order id and no payment data. *)
Definition no_payment_data : Server.Request :=
  Server.mkRequest (Js.Obj []) (Js.Obj [("order_id", Js.Num (inject_Z 7))]).

(** A checkout whose first step, the customer step, is the active one. *)
Definition customer_active : Checkout.Props :=
  Checkout.mkProps None None None None
    [Checkout.mkStep Customer true; Checkout.mkStep Shipping false;
     Checkout.mkStep Billing false; Checkout.mkStep Payment false].

Definition ada : Checkout.Address :=
  Checkout.mkAddress "Ada" "Lovelace" "1 Main St" "" "Austin" "TX" "US" "78701" "".

Definition laptop_cart : Checkout.Cart :=
  Checkout.mkCart "cart-1" (Checkout.mkCurrency "USD") (inject_Z 900)
    (Checkout.mkLineItems [Checkout.mkItem "Laptop" (inject_Z 1) (inject_Z 900)]).

(** A checkout at its payment step, with one laptop in the cart. *)
Definition laptop_order : Checkout.Props :=
  Checkout.mkProps (Some ada) (Some laptop_cart) (Some [Js.Obj []])
    None
    [Checkout.mkStep Customer false; Checkout.mkStep Shipping false;
     Checkout.mkStep Billing false; Checkout.mkStep Payment true].

(** A browser whose payments service answers with a portal address. *)
Definition portal_answers : Checkout.Env :=
  Checkout.mkEnv "https://shop.example" 1700000000000
    (fun q => Js.decimal (Qnum q))
    (fun _ _ => Js.Normal
       (Js.Obj [("data",
                 Js.Obj [("redirectUrl", Js.Str "https://portal.example/pay")])])).

(** A browser whose payments service cannot be reached. *)
Definition service_down : Checkout.Env :=
  Checkout.mkEnv "https://shop.example" 1700000000000
    (fun q => Js.decimal (Qnum q))
    (fun _ _ => Js.Throw (Js.Error "Network Error")).

End Samples.

(* ===================================================================== *)
(** ** Checkout.tsx: the handlers around the navigation *)
(* ===================================================================== *)

Module Handlers.
Import Checkout.
Local Open Scope component_scope.

Definition set_error (e : option Js.error) (st : CheckoutState) : CheckoutState :=
  mkState (activeStepType st) (isBillingSameAsShipping st) (customerViewType st)
          (defaultStepType st) e (flashMessages st) (isMultiShippingMode st)
          (isCartEmpty st) (isRedirecting st) (hasSelectedShippingOptions st)
          (isSubscribed st) (buttonConfigs st).

Definition set_hasSelectedShippingOptions (b : bool) (st : CheckoutState)
  : CheckoutState :=
  mkState (activeStepType st) (isBillingSameAsShipping st) (customerViewType st)
          (defaultStepType st) (error st) (flashMessages st) (isMultiShippingMode st)
          (isCartEmpty st) (isRedirecting st) b
          (isSubscribed st) (buttonConfigs st).

Definition set_isSubscribed (b : bool) (st : CheckoutState) : CheckoutState :=
  mkState (activeStepType st) (isBillingSameAsShipping st) (customerViewType st)
          (defaultStepType st) (error st) (flashMessages st) (isMultiShippingMode st)
          (isCartEmpty st) (isRedirecting st) (hasSelectedShippingOptions st)
          b (buttonConfigs st).

Definition set_isBillingSameAsShipping (b : bool) (st : CheckoutState)
  : CheckoutState :=
  mkState (activeStepType st) b (customerViewType st)
          (defaultStepType st) (error st) (flashMessages st) (isMultiShippingMode st)
          (isCartEmpty st) (isRedirecting st) (hasSelectedShippingOptions st)
          (isSubscribed st) (buttonConfigs st).

(** [handleCartChangedError(error)] *)
Definition handleCartChangedError (props : Props) : C unit :=
  navigateToStep props Shipping None.

(** [handleCloseErrorModal()] *)
Definition handleCloseErrorModal : C unit := setState (set_error None).

(** [handleEditStep(type)] *)
Definition handleEditStep (props : Props) (t : CheckoutStepType) : C unit :=
  navigateToStep props t None.


(** [handleNewsletterSubscription(subscribed)] *)
Definition handleNewsletterSubscription (subscribed : bool) : C unit :=
  setState (set_isSubscribed subscribed).

(** [handleShippingNextStep(isBillingSameAsShipping)] *)
Definition handleShippingNextStep (props : Props) (isBillingSameAsShipping : bool)
  : C unit :=
  setState (set_isBillingSameAsShipping isBillingSameAsShipping) ;;
  if isBillingSameAsShipping
  then navigateToNextIncompleteStep props None
  else navigateToStep props Billing None.

(** lodash [findIndex(steps, predicate)]: [-1] when no step matches. *)
Fixpoint findIndex (p : CheckoutStepStatus -> bool) (l : list CheckoutStepStatus) : Z :=
  match l with
  | [] => -1
  | s :: r =>
      if p s then 0
      else let i := findIndex p r in
           if (i <? 0)%Z then -1 else (i + 1)%Z
  end.

(** The lodash matcher [{ type: a }]; with [a] undefined it matches no step,
    every step having a type. *)
Definition of_type (a : option CheckoutStepType) (s : CheckoutStepStatus) : bool :=
  match a with
  | Some t => CheckoutStepType_eqb (type s) t
  | None => false
  end.

(** [defaultStepType === t] *)
Definition default_is (st : CheckoutState) (t : CheckoutStepType) : bool :=
  match defaultStepType st with
  | Some d => CheckoutStepType_eqb d t
  | None => false
  end.

(** [isShippingStepFinished] of [handleConsignmentsUpdated]. *)
Definition isShippingStepFinished (props : Props) (st : CheckoutState) : bool :=
  let isDefaultStepPaymentOrBilling :=
    match activeStepType st with
    | Some _ => false
    | None => default_is st Payment || default_is st Billing
    end in
  (findIndex (of_type (Some Shipping)) (steps props)
   <? findIndex (of_type (activeStepType st)) (steps props))%Z
  || isDefaultStepPaymentOrBilling.

(** [handleConsignmentsUpdated({ data })].  [newHasSelectedShippingOptions]
    is what [hasSelectedShippingOptions(data.getConsignments() || [])] yields
    and [expired] is the [new ShippingOptionExpiredError()]; neither the
    function nor the class is among the sources. *)
Definition handleConsignmentsUpdated (props : Props)
  (newHasSelectedShippingOptions : bool) (expired : Js.error) : C unit :=
  st <- getState ;;
  let prevHasSelectedShippingOptions := hasSelectedShippingOptions st in
  (if prevHasSelectedShippingOptions && negb newHasSelectedShippingOptions
      && isShippingStepFinished props st
   then navigateToStep props Shipping None ;;
        setState (set_error (Some expired))
   else ret tt) ;;
  setState (set_hasSelectedShippingOptions newHasSelectedShippingOptions).

(** What the error handlers do besides the events of the navigation:
    [errorLogger.log] and [embeddedMessenger.postError]. *)
Inductive Effect : Type :=
| Navigation (e : Event)
| ErrorLogged (e : Js.error)
| ErrorPosted (e : Js.error).

(** What the error handlers need from the instance: the test
    [error instanceof CartChangedError] (the class comes from the SDK) and
    whether [this.embeddedMessenger] is set. *)
Record Instance : Type := mkInstance {
  isCartChangedError : Js.error -> bool;
  embeddedMessenger : bool
}.

Definition E (A : Type) : Type :=
  CheckoutState -> list Effect * CheckoutState * Js.completion A.

(** A navigation step inside an error handler. *)
Definition navigation {A} (m : C A) : E A :=
  fun st => let '(tr, st', r) := m st in (map Navigation tr, st', r).

(** [handleError(error)] *)
Definition handleError (this : Instance) (props : Props) (error : Js.error) : E unit :=
  if isCartChangedError this error
  then navigation (handleCartChangedError props)
  else fun st =>
         ((ErrorLogged error
           :: (if embeddedMessenger this then [ErrorPosted error] else []))%list,
          st, Js.Normal tt).

(** [handleUnhandledError(error)] *)
Definition handleUnhandledError (this : Instance) (props : Props) (error : Js.error)
  : E unit :=
  fun st =>
    match handleError this props error st with
    | (tr, st', Js.Normal _) => (tr, set_error (Some error) st', Js.Normal tt)
    | (tr, st', Js.Throw e) => (tr, st', Js.Throw e)
    end.

End Handlers.

(* ===================================================================== *)
(** ** The page of the Dell payment form *)
(* ===================================================================== *)

Module Dom.

(** An element: its tag, its [id] attribute, its [value] property (inputs
    and buttons have one) and its child elements. *)
Inductive node : Type :=
| Node (tag : string) (id : option string) (value : option string)
       (children : list node).

Definition has_id (i : string) (nid : option string) : bool :=
  match nid with
  | Some j => j =? i
  | None => false
  end.

(** The first element with the id [i], in document order. *)
Fixpoint find_id (i : string) (n : node) : option node :=
  match n with
  | Node _ nid _ children =>
      if has_id i nid then Some n
      else (fix first (l : list node) : option node :=
              match l with
              | [] => None
              | c :: r =>
                  match find_id i c with
                  | Some found => Some found
                  | None => first r
                  end
              end) children
  end.

(** [container.appendChild(child)] on the first element with the id [i];
    [None] when there is no such element. *)
Fixpoint append_to (i : string) (child : node) (n : node) : option node :=
  match n with
  | Node tag nid value children =>
      if has_id i nid then Some (Node tag nid value (children ++ [child]))
      else option_map (Node tag nid value)
             ((fix first (l : list node) : option (list node) :=
                 match l with
                 | [] => None
                 | c :: r =>
                     match append_to i child c with
                     | Some c' => Some (c' :: r)
                     | None => option_map (cons c) (first r)
                     end
                 end) children)
  end.

(** The page after [container.appendChild(child)], the container being the
    first element with the id [i]. *)
Definition appendChild (i : string) (child : node) (page : node) : node :=
  match append_to i child page with
  | Some page' => page'
  | None => page
  end.

Definition element_of (n : node) : Element :=
  match n with Node _ _ value _ => {| elem_value := value |} end.

(** [document.querySelector(sel)] for the id selectors the sources use. *)
Definition querySelector (page : node) : Document :=
  fun sel =>
    match sel with
    | String "#"%char i => option_map element_of (find_id i page)
    | _ => None
    end.

End Dom.

Module DellForm.

(** The element built by [paymentForm.innerHTML = `...`]. *)
Definition paymentForm : Dom.node :=
  Dom.Node "div" None None
    [Dom.Node "div" None None
       [Dom.Node "label" None None [];
        Dom.Node "input" (Some "dell-account-number") (Some "") [];
        Dom.Node "label" None None [];
        Dom.Node "input" (Some "dell-purchase-order") (Some "") []]].

Definition container_missing : Js.error :=
  Js.Error "Dell payment container not found.".

(** [DellPaymentMethod.initializePayment(options)] *)
Definition initializePayment (page : Dom.node) (this : DellPaymentMethod.t)
  : Trace * Dom.node * settled Js.value :=
  let log := [ConsoleLog [Js.Str "Initializing Dell payment..."]] in
  match Dom.querySelector page "#dell-payment-container" with
  | None => (log, page, Rejected container_missing)
  | Some container =>
      (log, Dom.appendChild "dell-payment-container" paymentForm page,
       Resolved
         (Js.Obj [("methodId",
                   Js.Str (DellPaymentMethod.methodId (DellPaymentMethod.state this)));
                  ("gateway",
                   Js.Str (DellPaymentMethod.gateway (DellPaymentMethod.state this)))]))
  end.

End DellForm.

(* ===================================================================== *)
(** ** Further shapes named in the statements *)
(* ===================================================================== *)

(** What a Custom [submitPayment] is expected to resolve with. *)
Definition custom_payload (paymentData : Js.value) : Js.value :=
  Js.Obj [("type", Js.Str "custom-payment"); ("paymentData", paymentData)].

(** How the timer of a Custom [submitPayment] settles when nothing touches
  the instance in between. *)
Definition custom_submitted (this : CustomPaymentMethod.t) : settled Js.value :=
  snd (CustomPaymentMethod.fire (snd (CustomPaymentMethod.submitPayment this)) this).

(** Both Dell fields of a page hold something. *)
Definition both_entered (document : Document) : bool :=
  Js.truthy (DellPaymentMethod.entered document "#dell-account-number") &&
  Js.truthy (DellPaymentMethod.entered document "#dell-purchase-order").

(** A Dell instance after [validatePayment] ran against each page in turn. *)
Definition validated (pages : list Document) (this : DellPaymentMethod.t)
  : DellPaymentMethod.t :=
  fold_left (fun this page => fst (DellPaymentMethod.validatePayment page this))
    pages this.

(** The last page of the list that had both Dell fields filled in. *)
Definition last_complete (pages : list Document) : option Document :=
  find both_entered (rev pages).

(** The first element with the id [i] among a list of siblings and their
  descendants, in document order. *)
Fixpoint find_first (i : string) (l : list Dom.node) : option Dom.node :=
  match l with
  | [] => None
  | c :: r =>
      match Dom.find_id i c with
      | Some found => Some found
      | None => find_first i r
      end
  end.

(** [appendChild] below the first element with the id [i] among a list of
  siblings and their descendants. *)
Fixpoint append_first (i : string) (child : Dom.node) (l : list Dom.node)
  : option (list Dom.node) :=
  match l with
  | [] => None
  | c :: r =>
      match Dom.append_to i child c with
      | Some c' => Some (c' :: r)
      | None => option_map (cons c) (append_first i child r)
      end
  end.

(** A page with an empty Dell payment container. *)
Definition dell_page : Dom.node :=
  Dom.Node "body" None None
    [Dom.Node "h1" None None [];
     Dom.Node "div" (Some "dell-payment-container") None []].

(** The state a component computation ends in, and what it did. *)
Definition state_after {A} (m : Checkout.C A) (st : Checkout.CheckoutState)
  : Checkout.CheckoutState := snd (fst (m st)).

Definition trace_of {A} (m : Checkout.C A) (st : Checkout.CheckoutState) : Trace :=
  fst (fst (m st)).

(** The shopper had shipping options, the update reports none, and the
  shipping step counts as finished. *)
Definition options_expired (props : Checkout.Props) (st : Checkout.CheckoutState)
  (newHasSelectedShippingOptions : bool) : bool :=
  Checkout.hasSelectedShippingOptions st && negb newHasSelectedShippingOptions
  && Handlers.isShippingStepFinished props st.

(** Some step of the list has the type [t]. *)
Definition has_step (t : CheckoutStepType) (l : list Checkout.CheckoutStepStatus)
  : bool :=
  match Checkout.find_type t l with Some _ => true | None => false end.

Module MoreSamples.

(** A page without any Dell field. *)
Definition dell_blank : Document := fun _ => None.

End MoreSamples.

(* ===================================================================== *)
(** * Properties *)
(* ===================================================================== *)

(** ** JavaScript values *)

Lemma falsy_not_truthy (v : Js.value) :
  Js.falsy v = true -> Js.truthy v = false.
Proof.
  unfold Js.falsy. destruct (Js.truthy v); [discriminate | reflexivity].
Qed.

Lemma truthy_Str (s : string) : Js.truthy (Js.Str s) = true <-> s <> "".
Proof.
  simpl. destruct (String.eqb_spec s ""); simpl; split; congruence.
Qed.

Lemma length_positive (s : string) :
  Js.gt_zero (Js.member (Js.Str s) "length") = true <-> s <> "".
Proof.
  destruct s as [|c s].
  - simpl. split; [discriminate | intros H; now contradiction H].
  - unfold Js.member, Js.gt_zero. simpl. split; [discriminate | reflexivity].
Qed.

Lemma value_of_text (el : Element) :
  CustomPaymentMethod.text_or_unset (value_of el).
Proof.
  unfold value_of. destruct (elem_value el); exact I.
Qed.

(** ** [CustomPaymentMethod] *)

Section CustomPayment.
Import CustomPaymentMethod.

(** The constructor leaves the payment data unset. *)
Lemma new_paymentData (opts : Js.value) : paymentData (state (new opts)) = Js.Null.
Proof. reflexivity. Qed.

(** The class stores only what an input element holds. *)
Lemma Instance_text_or_unset (this : t) :
  Instance this -> text_or_unset (paymentData (state this)).
Proof.
  induction 1 as [opts | document this tr this' _ _ Hclick].
  - exact I.
  - unfold onSubmitClick in Hclick.
    destruct (document "#payment-details") as [el|]; [|discriminate].
    injection Hclick as _ <-. simpl. apply value_of_text.
Qed.

(** [validatePayment] never touches the instance. *)
Lemma validatePayment_keeps_instance (this : t) :
  snd (fst (validatePayment this)) = this.
Proof. reflexivity. Qed.

(** [validatePayment] settles one way or the other. *)
Lemma validatePayment_settles (this : t) :
  snd (validatePayment this) = Resolved tt \/
  snd (validatePayment this) = Rejected validation_failed.
Proof.
  unfold validatePayment; simpl.
  destruct (Js.truthy _ && Js.gt_zero _); auto.
Qed.

Lemma validatePayment_unset (this : t) :
  Js.truthy (paymentData (state this)) = false ->
  snd (validatePayment this) = Rejected validation_failed.
Proof.
  intros H. unfold validatePayment; simpl. now rewrite H.
Qed.

Lemma validatePayment_text (this : t) (s : string) :
  paymentData (state this) = Js.Str s ->
  (snd (validatePayment this) = Resolved tt <-> s <> "").
Proof.
  intros H. unfold validatePayment. cbn [snd]. rewrite H.
  destruct (String.eqb_spec s "") as [->|Hne].
  - simpl. split; [discriminate | congruence].
  - assert (Ht : Js.truthy (Js.Str s) = true) by now apply truthy_Str.
    assert (Hl : Js.gt_zero (Js.member (Js.Str s) "length") = true)
      by now apply length_positive.
    rewrite Ht, Hl. simpl. split; auto.
Qed.

Lemma submitPayment_unset (this then_ : t) :
  Js.truthy (paymentData (state then_)) = false ->
  snd (fire (snd (submitPayment this)) then_) = Rejected submission_failed.
Proof.
  intros H. simpl. unfold submitPayment_onTimeout. now rewrite H.
Qed.

End CustomPayment.

(** C8.  For every instance of [CustomPaymentMethod], [validatePayment]
    resolves if and only if [state.paymentData] is a non-empty string;
    otherwise it rejects with 'Payment validation failed. Please enter valid
    payment details.'; the instance is left as it was in both cases. *)
Theorem validatePayment_resolves_iff_text :
  forall this : CustomPaymentMethod.t,
    CustomPaymentMethod.Instance this ->
    let '(_, this', r) := CustomPaymentMethod.validatePayment this in
    (r = Resolved tt <->
     exists s, CustomPaymentMethod.paymentData (CustomPaymentMethod.state this)
               = Js.Str s /\ s <> "") /\
    (r <> Resolved tt ->
     r = Rejected (Js.Error
           "Payment validation failed. Please enter valid payment details.")) /\
    this' = this.
Proof.
  intros this Hinst.
  pose proof (Instance_text_or_unset this Hinst) as Hpd.
  pose proof (validatePayment_settles this) as Hset.
  pose proof (validatePayment_text this) as Htext.
  pose proof (validatePayment_unset this) as Hunset.
  destruct (CustomPaymentMethod.validatePayment this) as [[tr this'] r] eqn:E.
  assert (this' = this) as ->
    by (unfold CustomPaymentMethod.validatePayment in E; congruence).
  cbn [snd] in *.
  split; [|split]; [| |reflexivity].
  - destruct (CustomPaymentMethod.paymentData (CustomPaymentMethod.state this))
      as [| |b|q| |s|l|fs] eqn:Epd; try contradiction.
    + rewrite Hunset by reflexivity.
      split; [discriminate | intros [s [Hs _]]; discriminate].
    + rewrite Hunset by reflexivity.
      split; [discriminate | intros [s [Hs _]]; discriminate].
    + rewrite (Htext s eq_refl). split.
      * intros Hne. now exists s.
      * intros [s' [Hs' Hne]]. congruence.
  - intros Hr. destruct Hset as [Hres | Hrej]; [contradiction | exact Hrej].
Qed.

Lemma validatePayment_resolves_iff_text_witness :
  CustomPaymentMethod.Instance Samples.custom_4111 /\
  (snd (CustomPaymentMethod.validatePayment Samples.custom_4111) = Resolved tt <->
   exists s, CustomPaymentMethod.paymentData
               (CustomPaymentMethod.state Samples.custom_4111)
             = Js.Str s /\ s <> "").
Proof.
  assert (Hinst : CustomPaymentMethod.Instance Samples.custom_4111).
  { eapply (CustomPaymentMethod.Inst_click Samples.typed_4111
              (CustomPaymentMethod.new Js.Undefined)).
    - apply CustomPaymentMethod.Inst_new.
    - reflexivity. }
  split; [exact Hinst|].
  exact (proj1 (validatePayment_resolves_iff_text Samples.custom_4111 Hinst)).
Defined.

(** C2.  Each registered hook of 'custom-payment' builds a fresh
    [CustomPaymentMethod], whose [state.paymentData] is [null];
    [validatePayment] rejects whenever the payment data is [null] or empty and
    [submitPayment] rejects whenever it is falsy; so for every payment
    argument both registered hooks reject. *)
Theorem registered_hooks_always_reject :
  (forall opts,
     CustomPaymentMethod.paymentData
       (CustomPaymentMethod.state (CustomPaymentMethod.new opts)) = Js.Null) /\
  (forall this,
     CustomPaymentMethod.paymentData (CustomPaymentMethod.state this) = Js.Null \/
     CustomPaymentMethod.paymentData (CustomPaymentMethod.state this) = Js.Str "" ->
     snd (CustomPaymentMethod.validatePayment this)
     = Rejected CustomPaymentMethod.validation_failed) /\
  (forall this then_,
     Js.falsy (CustomPaymentMethod.paymentData (CustomPaymentMethod.state then_))
     = true ->
     snd (CustomPaymentMethod.fire
            (snd (CustomPaymentMethod.submitPayment this)) then_)
     = Rejected CustomPaymentMethod.submission_failed) /\
  (forall registered,
     snd (CheckoutJs.main (Some registered))
     = Some (registered ++ [CheckoutJs.customPayment])%list /\
     CheckoutJs.id CheckoutJs.customPayment = "custom-payment") /\
  (forall payment,
     snd (CheckoutJs.validatePayment CheckoutJs.customPayment payment)
     = Rejected (Js.Error
         "Payment validation failed. Please enter valid payment details.") /\
     snd (CheckoutJs.submitPayment CheckoutJs.customPayment payment)
     = Rejected (Js.Error
         "Payment submission failed. No payment data provided.")).
Proof.
  split; [|split; [|split; [|split]]].
  - intros opts. apply new_paymentData.
  - intros this [H | H]; apply validatePayment_unset; rewrite H; reflexivity.
  - intros this then_ H. apply submitPayment_unset. now apply falsy_not_truthy.
  - intros registered. split; reflexivity.
  - intros payment. split; reflexivity.
Qed.

Lemma registered_hooks_always_reject_witness :
  CustomPaymentMethod.paymentData
    (CustomPaymentMethod.state (CustomPaymentMethod.new Js.Undefined)) = Js.Null /\
  snd (CustomPaymentMethod.validatePayment (CustomPaymentMethod.new Js.Undefined))
  = Rejected CustomPaymentMethod.validation_failed.
Proof.
  split; [reflexivity|].
  apply (proj1 (proj2 registered_hooks_always_reject)). left. reflexivity.
Defined.


(** ** [DellPaymentMethod] *)

Section DellPayment.
Import DellPaymentMethod.

(** An entered value is a string or [undefined]: truthy means non-empty. *)
Lemma entered_truthy (document : Document) (sel : string) :
  Js.truthy (entered document sel) = true <->
  exists s, entered document sel = Js.Str s /\ s <> "".
Proof.
  unfold entered, value_of.
  destruct (document sel) as [[[s|]]|]; simpl.
  - pose proof (truthy_Str s) as Hs. simpl in Hs. split.
    + intros H. exists s. split; [reflexivity | now apply Hs].
    + intros [s' [Hs' Hne]]. injection Hs' as ->. now apply Hs.
  - split; [discriminate | intros [s [Hs _]]; discriminate].
  - split; [discriminate | intros [s [Hs _]]; discriminate].
Qed.

(** The constant fields of the state stay as the constructor set them. *)
Lemma Instance_constants (this : t) :
  Instance this ->
  method (state this) = "dell-payment" /\ methodId (state this) = "dell_payment".
Proof.
  induction 1 as [opts | document this _ IH].
  - split; reflexivity.
  - unfold validatePayment.
    destruct (Js.truthy _ && Js.truthy _); simpl; exact IH.
Qed.

(** The payment data is unset or a pair stored by [validatePayment]. *)
Lemma Instance_paymentData (this : t) :
  Instance this ->
  paymentData (state this) = Js.Null \/
  exists a p, a <> "" /\ p <> "" /\
              paymentData (state this) = dell_stored (Js.Str a) (Js.Str p).
Proof.
  induction 1 as [opts | document this _ IH].
  - now left.
  - unfold validatePayment.
    destruct (Js.truthy (entered document "#dell-account-number")) eqn:Ha;
      [destruct (Js.truthy (entered document "#dell-purchase-order")) eqn:Hp|];
      simpl; try exact IH.
    apply entered_truthy in Ha, Hp.
    destruct Ha as [a [Ea Hna]], Hp as [p [Ep Hnp]].
    right. exists a, p. rewrite Ea, Ep. auto.
Qed.

Lemma submitPayment_stored (this : t) (a p : Js.value) :
  Instance this ->
  paymentData (state this) = dell_stored a p ->
  submitPayment this = Resolved (dell_payload a p).
Proof.
  intros Hinst Hpd. destruct (Instance_constants this Hinst) as [Hm Hid].
  unfold submitPayment. rewrite Hpd, Hm, Hid. reflexivity.
Qed.

Lemma submitPayment_unset_dell (this : t) :
  Js.truthy (paymentData (state this)) = false ->
  submitPayment this = Rejected submission_failed.
Proof.
  intros H. unfold submitPayment. now rewrite H.
Qed.

End DellPayment.

(** C9.  For every instance of [DellPaymentMethod]: [validatePayment] stores
    [{accountNumber, poNumber}] in [state.paymentData] and resolves exactly
    when both entered values are non-empty, and otherwise rejects and leaves
    the instance as it was; [submitPayment] after a stored pair resolves with
    [methodId] 'dell_payment' and a [formattedPayload] carrying the stored
    values, and rejects with 'Payment submission failed. No payment data
    provided.' whenever [state.paymentData] is unset. *)
Theorem dell_validate_then_submit :
  forall (document : Document) (this : DellPaymentMethod.t),
    DellPaymentMethod.Instance this ->
    let accountNumber := DellPaymentMethod.entered document "#dell-account-number" in
    let poNumber := DellPaymentMethod.entered document "#dell-purchase-order" in
    let both_entered :=
      exists a p, accountNumber = Js.Str a /\ poNumber = Js.Str p /\
                  a <> "" /\ p <> "" in
    let '(this', r) := DellPaymentMethod.validatePayment document this in
    (both_entered ->
     r = Resolved tt /\
     this' = DellPaymentMethod.set_paymentData
               (dell_stored accountNumber poNumber) this /\
     DellPaymentMethod.submitPayment this'
     = Resolved (dell_payload accountNumber poNumber)) /\
    (~ both_entered ->
     r = Rejected (Js.Error "Please enter both Dell Account Number and PO Number") /\
     this' = this) /\
    (forall a p,
       DellPaymentMethod.paymentData (DellPaymentMethod.state this)
       = dell_stored a p ->
       DellPaymentMethod.submitPayment this = Resolved (dell_payload a p)) /\
    (Js.falsy (DellPaymentMethod.paymentData (DellPaymentMethod.state this)) = true ->
     DellPaymentMethod.submitPayment this
     = Rejected (Js.Error "Payment submission failed. No payment data provided.")).
Proof.
  intros document this Hinst accountNumber poNumber both_entered.
  pose proof (DellPaymentMethod.Inst_validate document this Hinst) as Hinst'.
  pose proof (entered_truthy document "#dell-account-number") as Ha.
  pose proof (entered_truthy document "#dell-purchase-order") as Hp.
  fold accountNumber in Ha. fold poNumber in Hp.
  unfold DellPaymentMethod.validatePayment in *.
  fold accountNumber poNumber in Hinst' |- *.
  destruct (Js.truthy accountNumber) eqn:Ta;
    [destruct (Js.truthy poNumber) eqn:Tp|]; cbn [andb fst] in *.
  - split; [|split; [|split]].
    + intros _. repeat split.
      apply submitPayment_stored; [exact Hinst' | reflexivity].
    + intros Hno. exfalso. apply Hno.
      destruct (proj1 Ha eq_refl) as [a [Ea Hna]].
      destruct (proj1 Hp eq_refl) as [p [Ep Hnp]].
      exists a, p. auto.
    + intros a p. now apply submitPayment_stored.
    + intros Hf. apply submitPayment_unset_dell. now apply falsy_not_truthy.
  - split; [|split; [|split]].
    + intros [a [p [Ea [Ep [Hna Hnp]]]]].
      assert (false = true) by (apply Hp; now exists p).
      discriminate.
    + intros _. split; reflexivity.
    + intros a p. now apply submitPayment_stored.
    + intros Hf. apply submitPayment_unset_dell. now apply falsy_not_truthy.
  - split; [|split; [|split]].
    + intros [a [p [Ea [Ep [Hna Hnp]]]]].
      assert (false = true) by (apply Ha; now exists a).
      discriminate.
    + intros _. split; reflexivity.
    + intros a p. now apply submitPayment_stored.
    + intros Hf. apply submitPayment_unset_dell. now apply falsy_not_truthy.
Qed.

Lemma dell_validate_then_submit_witness :
  DellPaymentMethod.Instance (DellPaymentMethod.new Js.Undefined) /\
  snd (DellPaymentMethod.validatePayment Samples.dell_form
         (DellPaymentMethod.new Js.Undefined)) = Resolved tt /\
  DellPaymentMethod.submitPayment
    (fst (DellPaymentMethod.validatePayment Samples.dell_form
            (DellPaymentMethod.new Js.Undefined)))
  = Resolved (dell_payload (Js.Str "ACC-7") (Js.Str "PO-42")).
Proof.
  pose proof (dell_validate_then_submit Samples.dell_form
                (DellPaymentMethod.new Js.Undefined)
                (DellPaymentMethod.Inst_new Js.Undefined)) as H.
  cbv zeta in H.
  destruct (DellPaymentMethod.validatePayment Samples.dell_form
              (DellPaymentMethod.new Js.Undefined)) as [this' r].
  destruct H as [H _].
  destruct H as [Hr [_ Hs]].
  { exists "ACC-7", "PO-42". repeat split; discriminate. }
  split; [apply DellPaymentMethod.Inst_new|].
  split; [exact Hr | exact Hs].
Defined.

(** ** The Express router *)

Example order_seven_succeeds :
  Server.respond Server.process_payment Samples.accepting Samples.order_seven
  = (Server.mkResponse 200
       (Some (Server.Json (success_body (Js.Str "tx_1") (Js.Num (inject_Z 10))
                             (Js.Str "USD") "2023-11-14T22:13:20.000Z"))),
     Js.Normal tt).
Proof. reflexivity. Qed.

Example test_endpoint_transaction_id :
  Server.respond Server.process_payment_test Samples.accepting Samples.order_seven
  = (Server.mkResponse 200
       (Some (Server.Json (success_body (Js.Str "TEST_1700000000000")
                             (Js.Num (inject_Z 10)) (Js.Str "USD")
                             "2023-11-14T22:13:20.000Z"))),
     Js.Normal tt).
Proof. reflexivity. Qed.

Section ProcessPayment.
Import Server.
Variable env : Env.
Variable req : Request.

Let payment_data := Js.get_opt (body req) "payment_data".
Let order_id := Js.get_opt (body req) "order_id".

Lemma get_opt_member (v : Js.value) (k : string) :
  Js.nullish v = false -> Js.get_opt v k = Js.member v k.
Proof. unfold Js.get_opt. now intros ->. Qed.

Lemma truthy_not_nullish (v : Js.value) :
  Js.truthy v = true -> Js.nullish v = false.
Proof. destruct v; simpl; congruence. Qed.

(** No body at all: the destructuring throws and the catch block answers. *)
Lemma process_payment_no_body :
  Js.nullish (body req) = true ->
  exists msg,
    respond process_payment env req
    = (mkResponse 400 (Some (Json (error_body msg))), Js.Normal tt).
Proof.
  intros Hb. unfold respond, process_payment, try_catch, bind, eval, destructure.
  rewrite Hb. eexists. reflexivity.
Qed.

(** The guard of the handler. *)
Lemma process_payment_guard :
  Js.nullish (body req) = false ->
  Js.falsy payment_data || Js.falsy order_id = true ->
  respond process_payment env req
  = (mkResponse 400 (Some (Json (error_body "Missing required fields"))),
     Js.Normal tt).
Proof.
  intros Hb Hg. subst payment_data order_id.
  rewrite !get_opt_member in Hg by exact Hb.
  unfold respond, process_payment, try_catch, bind, eval, destructure.
  rewrite Hb. cbv beta iota zeta. rewrite Hg. reflexivity.
Qed.

(** The provider throws: the catch block answers with its message. *)
Lemma process_payment_provider_throws (e : Js.error) :
  Js.falsy payment_data || Js.falsy order_id = false ->
  processPayment env payment_data = Js.Throw e ->
  respond process_payment env req
  = (mkResponse 400 (Some (Json (error_body (Js.message e)))), Js.Normal tt).
Proof.
  intros Hg Hp.
  assert (Hb : Js.nullish (body req) = false).
  { destruct (Js.nullish (body req)) eqn:E; [|reflexivity].
    subst payment_data. unfold Js.get_opt in Hg. rewrite E in Hg. discriminate. }
  subst payment_data order_id. rewrite !get_opt_member in * by exact Hb.
  unfold respond, process_payment, try_catch, bind, eval, destructure.
  rewrite Hb. cbv beta iota zeta. rewrite Hg, Hp. reflexivity.
Qed.

(** The provider yields no transaction: reading [transaction.id] throws. *)
Lemma process_payment_no_transaction (transaction : Js.value) :
  Js.falsy payment_data || Js.falsy order_id = false ->
  processPayment env payment_data = Js.Normal transaction ->
  Js.nullish transaction = true ->
  exists msg,
    respond process_payment env req
    = (mkResponse 400 (Some (Json (error_body msg))), Js.Normal tt).
Proof.
  intros Hg Hp Hn.
  assert (Hb : Js.nullish (body req) = false).
  { destruct (Js.nullish (body req)) eqn:E; [|reflexivity].
    subst payment_data. unfold Js.get_opt in Hg. rewrite E in Hg. discriminate. }
  subst payment_data order_id. rewrite !get_opt_member in * by exact Hb.
  unfold respond, process_payment, try_catch, bind, eval, destructure.
  rewrite Hb. cbv beta iota zeta. rewrite Hg, Hp. unfold Js.get.
  rewrite Hn. eexists. reflexivity.
Qed.

(** The provider yields a transaction: the handler answers with success. *)
Lemma process_payment_success (transaction : Js.value) :
  Js.falsy payment_data || Js.falsy order_id = false ->
  processPayment env payment_data = Js.Normal transaction ->
  Js.nullish transaction = false ->
  respond process_payment env req
  = (mkResponse 200
       (Some (Json (success_body (Js.member transaction "id")
                      (Js.member payment_data "amount")
                      (Js.member payment_data "currency") (isoNow env)))),
     Js.Normal tt).
Proof.
  intros Hg Hp Hn.
  assert (Hb : Js.nullish (body req) = false).
  { destruct (Js.nullish (body req)) eqn:E; [|reflexivity].
    subst payment_data. unfold Js.get_opt in Hg. rewrite E in Hg. discriminate. }
  apply orb_false_elim in Hg as Hg'. destruct Hg' as [Hpd _].
  assert (Hnpd : Js.nullish payment_data = false).
  { apply truthy_not_nullish. unfold Js.falsy in Hpd.
    now destruct (Js.truthy payment_data). }
  subst payment_data order_id. rewrite !get_opt_member in * by exact Hb.
  unfold respond, process_payment, try_catch, bind, eval, destructure.
  rewrite Hb. cbv beta iota zeta. rewrite Hg, Hp. unfold Js.get.
  rewrite Hn, Hnpd. reflexivity.
Qed.

End ProcessPayment.

Lemma falsy_cases (v : Js.value) : Js.falsy v = true \/ Js.falsy v = false.
Proof. destruct (Js.falsy v); auto. Qed.

Lemma error_400_not_200 (p : option Server.Payload) :
  ~ error_400 (Server.mkResponse 200 p).
Proof. intros [msg H]. discriminate. Qed.

(** C6, as the code has it.  For every POST /process-payment request the
    handler answers (it never leaves the request unanswered) and: it
    responds with HTTP 400 and a JSON body of status 'error' if and only if
    [payment_data] is falsy or [order_id] is falsy or payment processing
    throws; when the body is an object and one of the two fields is falsy the
    message is 'Missing required fields'; in every other case it responds
    with a JSON body of status 'success' that echoes [payment_data.amount]
    and [payment_data.currency]. *)
Theorem process_payment_answers :
  forall (env : Server.Env) (req : Server.Request),
    let payment_data := Js.get_opt (Server.body req) "payment_data" in
    let order_id := Js.get_opt (Server.body req) "order_id" in
    let res := fst (Server.respond Server.process_payment env req) in
    snd (Server.respond Server.process_payment env req) = Js.Normal tt /\
    (error_400 res <->
     Js.falsy payment_data = true \/ Js.falsy order_id = true \/
     processing_throws env payment_data) /\
    (Js.nullish (Server.body req) = false ->
     Js.falsy payment_data = true \/ Js.falsy order_id = true ->
     res = Server.mkResponse 400
             (Some (Server.Json (error_body "Missing required fields")))) /\
    (~ error_400 res ->
     exists transaction_id,
       res = Server.mkResponse 200
               (Some (Server.Json
                        (success_body transaction_id
                           (Js.member payment_data "amount")
                           (Js.member payment_data "currency")
                           (Server.isoNow env))))).
Proof.
  intros env req payment_data order_id res. subst res.
  destruct (Js.nullish (Server.body req)) eqn:Hb.
  - (* no body *)
    destruct (process_payment_no_body env req Hb) as [msg ->]. cbn [fst snd].
    assert (Hpd : Js.falsy payment_data = true).
    { subst payment_data. unfold Js.get_opt. now rewrite Hb. }
    split; [reflexivity|]. split; [|split].
    + split; [auto | intros _; eexists; reflexivity].
    + discriminate.
    + intros Hno. exfalso. apply Hno. eexists; reflexivity.
  - destruct (Js.falsy payment_data || Js.falsy order_id) eqn:Hg.
    + (* the guard trips *)
      rewrite (process_payment_guard env req Hb Hg). cbn [fst snd].
      split; [reflexivity|]. split; [|split].
      * split; [|intros _; eexists; reflexivity].
        intros _. apply orb_true_iff in Hg. tauto.
      * reflexivity.
      * intros Hno. exfalso. apply Hno. eexists; reflexivity.
    + apply orb_false_elim in Hg as Hg'. destruct Hg' as [Hpd Hoid].
      unfold processing_throws.
      destruct (Server.processPayment env payment_data) as [transaction|e] eqn:Hp.
      * destruct (Js.nullish transaction) eqn:Hn.
        -- destruct (process_payment_no_transaction env req transaction Hg Hp Hn)
             as [msg ->]. cbn [fst snd].
           split; [reflexivity|]. split; [|split].
           ++ split; [auto | intros _; eexists; reflexivity].
           ++ intros _ [H | H]; congruence.
           ++ intros Hno. exfalso. apply Hno. eexists; reflexivity.
        -- rewrite (process_payment_success env req transaction Hg Hp Hn).
           cbn [fst snd]. split; [reflexivity|]. split; [|split].
           ++ split.
              ** intros H. now apply error_400_not_200 in H.
              ** intros [H | [H | H]]; congruence.
           ++ intros _ [H | H]; congruence.
           ++ intros _. eexists. reflexivity.
      * rewrite (process_payment_provider_throws env req e Hg Hp). cbn [fst snd].
        split; [reflexivity|]. split; [|split].
        -- split; [auto | intros _; eexists; reflexivity].
        -- intros _ [H | H]; congruence.
        -- intros Hno. exfalso. apply Hno. eexists; reflexivity.
Qed.

Lemma process_payment_answers_witness :
  Js.nullish (Server.body Samples.order_zero) = false /\
  Js.falsy (Js.get_opt (Server.body Samples.order_zero) "order_id") = true /\
  fst (Server.respond Server.process_payment Samples.accepting Samples.order_zero)
  = Server.mkResponse 400
      (Some (Server.Json (error_body "Missing required fields"))).
Proof.
  split; [reflexivity|]. split; [reflexivity|].
  pose proof (process_payment_answers Samples.accepting Samples.order_zero) as H.
  cbv zeta in H. destruct H as [_ [_ [H _]]].
  apply H; [reflexivity | right; reflexivity].
Defined.


(** C6, against the claim as stated: a body that has both fields, with
    [order_id] 0, is answered with HTTP 400 although nothing is lacking and
    processing does not throw. *)
Lemma process_payment_order_zero_rejected :
  ~ (error_400 (fst (Server.respond Server.process_payment
                       Samples.accepting Samples.order_zero)) <->
     lacks (Server.body Samples.order_zero) "payment_data" \/
     lacks (Server.body Samples.order_zero) "order_id" \/
     processing_throws Samples.accepting
       (Js.get_opt (Server.body Samples.order_zero) "payment_data")).
Proof.
  intros [Himp _].
  assert (Herr : error_400 (fst (Server.respond Server.process_payment
                                   Samples.accepting Samples.order_zero)))
    by (exists "Missing required fields"; reflexivity).
  destruct (Himp Herr) as [H | [H | H]]; discriminate.
Qed.

(** C7.  For every POST /process-payment-test request whose body lacks
    [payment_data], the handler throws a [TypeError] before anything is sent
    (for a body that is there, while reading [payment_data.amount]), since it
    has neither guard nor try/catch; the guarded /process-payment handler
    answers the same request with HTTP 400 and a JSON error body. *)
Theorem process_payment_test_throws :
  forall (env : Server.Env) (req : Server.Request),
    lacks (Server.body req) "payment_data" ->
    (exists e,
       Server.respond Server.process_payment_test env req
       = (Server.fresh, Js.Throw e) /\
       Js.name e = "TypeError" /\
       (Js.nullish (Server.body req) = false ->
        e = Js.TypeError "Cannot read properties of undefined (reading 'amount')")) /\
    Server.sent (fst (Server.respond Server.process_payment_test env req)) = None /\
    error_400 (fst (Server.respond Server.process_payment env req)) /\
    snd (Server.respond Server.process_payment env req) = Js.Normal tt.
Proof.
  intros env req Hlack. unfold lacks in Hlack.
  assert (Htest : exists e,
             Server.respond Server.process_payment_test env req
             = (Server.fresh, Js.Throw e) /\
             Js.name e = "TypeError" /\
             (Js.nullish (Server.body req) = false ->
              e = Js.TypeError
                    "Cannot read properties of undefined (reading 'amount')")).
  { unfold Server.respond, Server.process_payment_test, Server.bind, Server.eval.
    unfold Js.get at 1.
    destruct (Js.nullish (Server.body req)) eqn:Hb.
    - eexists. split; [reflexivity|]. split; [reflexivity | discriminate].
    - rewrite (get_opt_member _ _ Hb) in Hlack. rewrite Hlack.
      eexists. split; [reflexivity|]. split; reflexivity. }
  split; [exact Htest|].
  split; [destruct Htest as [e [-> _]]; reflexivity|].
  destruct (Js.nullish (Server.body req)) eqn:Hb.
  - destruct (process_payment_no_body env req Hb) as [msg ->].
    split; [eexists|]; reflexivity.
  - rewrite (process_payment_guard env req Hb).
    + split; [eexists|]; reflexivity.
    + rewrite Hlack. reflexivity.
Qed.

Lemma process_payment_test_throws_witness :
  lacks (Server.body Samples.no_payment_data) "payment_data" /\
  Server.respond Server.process_payment_test Samples.accepting
    Samples.no_payment_data
  = (Server.fresh,
     Js.Throw (Js.TypeError
                 "Cannot read properties of undefined (reading 'amount')")).
Proof.
  split; [reflexivity|].
  destruct (process_payment_test_throws Samples.accepting
              Samples.no_payment_data eq_refl) as [[e [Hrun [_ He]]] _].
  rewrite Hrun, (He eq_refl). reflexivity.
Defined.

(** C3, as the code has it.  The router registers exactly three routes, in
    this order: GET /auth/callback, POST /process-payment and
    POST /process-payment-test; exactly two of them, the POST routes, are
    payment endpoints. *)
Theorem router_registers_three_routes :
  signatures Server.router
  = [(Server.GET, "/auth/callback");
     (Server.POST, "/process-payment");
     (Server.POST, "/process-payment-test")] /\
  List.length Server.router = 3%nat /\
  signatures (Server.payment_endpoints Server.router)
  = [(Server.POST, "/process-payment");
     (Server.POST, "/process-payment-test")].
Proof. repeat split. Qed.

(** C3, against the claim as stated: the router does not register exactly
    two routes. *)
Lemma router_not_two_routes : List.length Server.router <> 2%nat.
Proof. discriminate. Qed.

(** ** The [Checkout] component: navigation *)

Section Navigation.
Import Checkout.

Lemma CheckoutStepType_eqb_eq (a b : CheckoutStepType) :
  CheckoutStepType_eqb a b = true <-> a = b.
Proof. destruct a, b; simpl; split; congruence. Qed.

Lemma find_type_Some (t : CheckoutStepType) (l : list CheckoutStepStatus)
  (step : CheckoutStepStatus) :
  find_type t l = Some step -> In step l /\ type step = t.
Proof.
  unfold find_type. intros H. apply find_some in H as [Hin Heq].
  split; [exact Hin | now apply CheckoutStepType_eqb_eq].
Qed.

Lemma find_type_None (t : CheckoutStepType) (l : list CheckoutStepStatus) :
  find_type t l = None <-> no_step_of_type t l.
Proof.
  unfold find_type, no_step_of_type. split.
  - intros H s Hin Heq.
    pose proof (find_none _ _ H s Hin) as Hf. cbv beta in Hf.
    apply CheckoutStepType_eqb_eq in Heq. congruence.
  - intros H. destruct (find _ l) as [s|] eqn:E; [|reflexivity].
    apply find_some in E as [Hin Heq]. apply CheckoutStepType_eqb_eq in Heq.
    now apply H in Hin.
Qed.

Lemma same_type_eq (a : option CheckoutStepType) (t : CheckoutStepType) :
  same_type a t = true <-> a = Some t.
Proof.
  destruct a as [a|]; simpl.
  - rewrite CheckoutStepType_eqb_eq. split; congruence.
  - split; discriminate.
Qed.

(** The two early returns of [navigateToStep]. *)
Lemma navigateToStep_returns_early (props : Props) (t : CheckoutStepType)
  (options : option NavigateOptions) (st : CheckoutState) :
  no_step_of_type t (steps props) \/ activeStepType st = Some t ->
  navigateToStep props t options st = ([], st, Js.Normal tt).
Proof.
  intros H. unfold navigateToStep, bind, getState, ret. cbn.
  destruct (find_type t (steps props)) as [step|] eqn:E; [|reflexivity].
  destruct H as [H | H].
  - apply find_type_None in H. congruence.
  - apply find_type_Some in E as [_ ->].
    apply same_type_eq in H. rewrite H. reflexivity.
Qed.

(** Past the early returns, one step type is set and a pending error is
    cleared. *)
Lemma navigateToStep_moves (props : Props) (t : CheckoutStepType)
  (options : option NavigateOptions) (st : CheckoutState) :
  ~ no_step_of_type t (steps props) -> activeStepType st <> Some t ->
  navigateToStep props t options st
  = (match props_error props with Some e => [ClearError e] | None => [] end,
     (if wants_default options then set_defaultStepType t st
      else set_activeStepType t st),
     Js.Normal tt).
Proof.
  intros Hstep Hactive. unfold navigateToStep, bind, getState, ret. cbn.
  destruct (find_type t (steps props)) as [step|] eqn:E.
  - apply find_type_Some in E as [_ ->].
    destruct (same_type (activeStepType st) t) eqn:Es.
    + apply same_type_eq in Es. contradiction.
    + destruct (wants_default options), (props_error props); reflexivity.
  - apply find_type_None in E. contradiction.
Qed.

Lemma findIndex_active_range (l : list CheckoutStepStatus) :
  (-1 <= findIndex_active l)%Z.
Proof.
  induction l as [|s r IH]; simpl; [lia|].
  destruct (isActive s); [lia|].
  destruct (Z.ltb_spec (findIndex_active r) 0); lia.
Qed.

Lemma findIndex_active_none (l : list CheckoutStepStatus) :
  none_active l -> findIndex_active l = (-1)%Z.
Proof.
  unfold none_active. induction l as [|s r IH]; intros H; simpl; [reflexivity|].
  rewrite (H s (or_introl eq_refl)).
  rewrite IH by (intros s' Hin; apply H; now right). reflexivity.
Qed.

Lemma findIndex_active_first (l : list CheckoutStepStatus) (i : nat)
  (s : CheckoutStepStatus) :
  first_active l i s -> findIndex_active l = Z.of_nat i.
Proof.
  unfold first_active. revert i.
  induction l as [|x r IH]; intros i [Hnth [Hact Hbefore]].
  - destruct i; discriminate.
  - destruct i as [|i]; simpl in Hnth.
    + injection Hnth as ->. simpl. now rewrite Hact.
    + simpl. rewrite (Hbefore 0%nat x) by (simpl; auto; lia).
      rewrite (IH i).
      * destruct (Z.ltb_spec (Z.of_nat i) 0); lia.
      * split; [exact Hnth|]. split; [exact Hact|].
        intros j s' Hj Hs'. apply (Hbefore (S j) s'); [lia | exact Hs'].
Qed.

Lemma at_index_of_nat (l : list CheckoutStepStatus) (i : nat) :
  at_index l (Z.of_nat i) = nth_error l i.
Proof.
  unfold at_index. destruct (Z.ltb_spec (Z.of_nat i) 0); [lia|].
  now rewrite Nat2Z.id.
Qed.

(** Either no step is active or there is a first active one. *)
Lemma none_or_first_active (l : list CheckoutStepStatus) :
  none_active l \/ exists i s, first_active l i s.
Proof.
  induction l as [|x r IH].
  - left. intros s [].
  - destruct (isActive x) eqn:Ex.
    + right. exists 0%nat, x. split; [reflexivity|]. split; [exact Ex|].
      intros j s' Hj. lia.
    + destruct IH as [Hnone | [i [s [Hnth [Hact Hbefore]]]]].
      * left. intros s [<- | Hin]; [exact Ex | now apply Hnone].
      * right. exists (S i), s. split; [exact Hnth|]. split; [exact Hact|].
        intros [|j] s' Hj Hs'.
        -- simpl in Hs'. now injection Hs' as <-.
        -- apply (Hbefore j s'); [lia | exact Hs'].
Qed.

Lemma max_pred (i : nat) : Z.max (Z.of_nat i - 1) 0 = Z.of_nat (Nat.pred i).
Proof. destruct i; lia. Qed.

End Navigation.

(** C5.  For every call [navigateToStep(type, options)]: if no step of
    [props.steps] has that type, or [activeStepType] already equals it, the
    component state is unchanged and no error is cleared; otherwise exactly
    one of [defaultStepType] (when [options.isDefault] is set) or
    [activeStepType] (otherwise) is set to that type, every other field of the
    state is unchanged, and a pending error prop is cleared. *)
Theorem navigateToStep_frame :
  forall (props : Checkout.Props) (t : CheckoutStepType)
         (options : option Checkout.NavigateOptions) (st : Checkout.CheckoutState),
    let '(tr, st', r) := Checkout.navigateToStep props t options st in
    r = Js.Normal tt /\
    (no_step_of_type t (Checkout.steps props) \/
     Checkout.activeStepType st = Some t ->
     st' = st /\ tr = []) /\
    (~ no_step_of_type t (Checkout.steps props) ->
     Checkout.activeStepType st <> Some t ->
     (if Checkout.wants_default options
      then Checkout.defaultStepType st' = Some t /\
           Checkout.activeStepType st' = Checkout.activeStepType st
      else Checkout.activeStepType st' = Some t /\
           Checkout.defaultStepType st' = Checkout.defaultStepType st) /\
     same_besides_step_types st st' /\
     tr = match Checkout.props_error props with
          | Some e => [ClearError e]
          | None => []
          end).
Proof.
  intros props t options st.
  destruct (Checkout.find_type t (Checkout.steps props)) as [step|] eqn:E;
    [destruct (Checkout.same_type (Checkout.activeStepType st) t) eqn:Es|].
  - apply same_type_eq in Es.
    rewrite navigateToStep_returns_early by (now right).
    split; [reflexivity|]. split; [auto|]. intros _ H. contradiction.
  - assert (Hstep : ~ no_step_of_type t (Checkout.steps props)).
    { intros H. apply find_type_None in H. congruence. }
    assert (Hact : Checkout.activeStepType st <> Some t).
    { intros H. apply same_type_eq in H. congruence. }
    rewrite navigateToStep_moves by assumption.
    split; [reflexivity|]. split.
    + intros [H | H]; contradiction.
    + intros _ _. unfold same_besides_step_types.
      destruct (Checkout.wants_default options); cbn; repeat split.
  - apply find_type_None in E.
    rewrite navigateToStep_returns_early by (now left).
    split; [reflexivity|]. split; [auto|]. intros H. contradiction.
Qed.

Lemma navigateToStep_frame_witness :
  ~ no_step_of_type Payment (Checkout.steps Samples.laptop_order) /\
  Checkout.activeStepType Checkout.initial <> Some Payment /\
  Checkout.activeStepType
    (snd (fst (Checkout.navigateToStep Samples.laptop_order Payment None
                 Checkout.initial))) = Some Payment.
Proof.
  assert (H1 : ~ no_step_of_type Payment (Checkout.steps Samples.laptop_order)).
  { intros H. apply (H (Checkout.mkStep Payment true)); [simpl; auto 6 | reflexivity]. }
  assert (H2 : Checkout.activeStepType Checkout.initial <> Some Payment)
    by discriminate.
  split; [exact H1|]. split; [exact H2|].
  pose proof (navigateToStep_frame Samples.laptop_order Payment None
                Checkout.initial) as H.
  destruct (Checkout.navigateToStep Samples.laptop_order Payment None
              Checkout.initial) as [[tr st'] r].
  destruct H as [_ [_ H]]. destruct (H H1 H2) as [[Ha _] _]. exact Ha.
Defined.


(** C4, as the code has it.  For every call to
    [navigateToNextIncompleteStep]: if no step of [props.steps] is marked
    active, the component state is unchanged and nothing is tracked;
    otherwise [trackStepCompleted] is called with the type of the step at
    index [max(activeIndex - 1, 0)], which is the step right before the first
    active step or, when that one is first in the list, the active step
    itself, and the component then navigates to the type of the active
    step. *)
Theorem navigateToNextIncompleteStep_tracks_clamped :
  forall (props : Checkout.Props) (options : option Checkout.NavigateOptions)
         (st : Checkout.CheckoutState),
    (none_active (Checkout.steps props) ->
     Checkout.navigateToNextIncompleteStep props options st
     = ([], st, Js.Normal tt)) /\
    (forall i active,
       first_active (Checkout.steps props) i active ->
       exists previous,
         nth_error (Checkout.steps props) (Nat.pred i) = Some previous /\
         Checkout.navigateToNextIncompleteStep props options st
         = (let '(tr, st', r) :=
              Checkout.navigateToStep props (Checkout.type active) options st in
            (TrackStepCompleted (Checkout.type previous) :: tr, st', r))).
Proof.
  intros props options st. split.
  - intros Hnone. unfold Checkout.navigateToNextIncompleteStep.
    rewrite (findIndex_active_none _ Hnone). reflexivity.
  - intros i active Hfirst.
    pose proof (findIndex_active_first _ _ _ Hfirst) as Hidx.
    destruct Hfirst as [Hnth _].
    assert (Hprev : exists previous,
               nth_error (Checkout.steps props) (Nat.pred i) = Some previous).
    { destruct (nth_error (Checkout.steps props) (Nat.pred i)) as [p|] eqn:Ep;
        [now exists p|].
      apply nth_error_None in Ep.
      assert (i < List.length (Checkout.steps props))%nat
        by (apply nth_error_Some; congruence).
      lia. }
    destruct Hprev as [previous Hprev]. exists previous. split; [exact Hprev|].
    unfold Checkout.navigateToNextIncompleteStep. rewrite Hidx.
    destruct (Z.leb_spec 0 (Z.of_nat i)); [|lia].
    rewrite at_index_of_nat, Hnth, max_pred, at_index_of_nat, Hprev.
    unfold Checkout.bind, Checkout.emit.
    destruct (Checkout.navigateToStep props (Checkout.type active) options st)
      as [[tr st'] r]. reflexivity.
Qed.

Lemma navigateToNextIncompleteStep_tracks_clamped_witness :
  first_active (Checkout.steps Samples.customer_active) 0
    (Checkout.mkStep Customer true) /\
  Checkout.navigateToNextIncompleteStep Samples.customer_active
    (Some (Checkout.mkOptions (Some true))) Checkout.initial
  = ([TrackStepCompleted Customer],
     Checkout.set_defaultStepType Customer Checkout.initial, Js.Normal tt).
Proof.
  assert (Hf : first_active (Checkout.steps Samples.customer_active) 0
                 (Checkout.mkStep Customer true)).
  { split; [reflexivity|]. split; [reflexivity|]. intros j s' Hj. inversion Hj. }
  split; [exact Hf|].
  destruct (proj2 (navigateToNextIncompleteStep_tracks_clamped
                     Samples.customer_active
                     (Some (Checkout.mkOptions (Some true))) Checkout.initial)
              0%nat _ Hf) as [previous [Hprev Hrun]].
  simpl in Hprev. injection Hprev as <-. exact Hrun.
Defined.


(** C4, against the claim as stated: with the first step active,
    [trackStepCompleted] is called with the type of the active step itself;
    no step precedes it. *)
Lemma first_step_active_tracks_itself :
  fst (fst (Checkout.navigateToNextIncompleteStep Samples.customer_active
              (Some (Checkout.mkOptions (Some true))) Checkout.initial))
  = [TrackStepCompleted Customer] /\
  ~ tracks_preceding_step (Checkout.steps Samples.customer_active)
      (fst (fst (Checkout.navigateToNextIncompleteStep Samples.customer_active
                   (Some (Checkout.mkOptions (Some true))) Checkout.initial))).
Proof.
  split; [reflexivity|].
  intros [prev [Hprev _]]. discriminate.
Qed.

(** ** The [Checkout] component: Place Order *)

Section PlaceOrder.
Import Checkout.
Variable env : Env.
Variable props : Props.
Variable st : CheckoutState.

(** The guard at the top of the handler. *)
Lemma logOrderDetailsAndNavigate_guard :
  order_details_missing props ->
  logOrderDetailsAndNavigate env props st
  = ([ConsoleError [Js.Str "Missing order details"]], st, Js.Normal tt).
Proof.
  unfold order_details_missing, logOrderDetailsAndNavigate.
  intros [H | [H | [H | H]]]; rewrite H.
  - reflexivity.
  - destruct (cart props); reflexivity.
  - destruct (cart props), (billingAddress props); reflexivity.
  - destruct (cart props), (billingAddress props); reflexivity.
Qed.

Variable cart0 : Cart.
Variable billingAddress0 : Address.
Variable consignment0 : Js.value.
Variable consignments0 : list Js.value.
Hypothesis Hcart : cart props = Some cart0.
Hypothesis Hbilling : billingAddress props = Some billingAddress0.
Hypothesis Hconsignments : consignments props = Some (consignment0 :: consignments0).

Let body0 := requestBody env cart0 billingAddress0.

(** The request fails: the empty catch block swallows the error. *)
Lemma logOrderDetailsAndNavigate_request_fails (e : Js.error) :
  axios_post env payments_url body0 = Js.Throw e ->
  logOrderDetailsAndNavigate env props st
  = ([HttpPost payments_url body0], st, Js.Normal tt).
Proof.
  intros Hpost. unfold logOrderDetailsAndNavigate.
  rewrite Hcart, Hbilling, Hconsignments. cbn [List.length Nat.eqb].
  unfold try_catch, post, bind, emit, eval, ret. fold body0. rewrite Hpost.
  reflexivity.
Qed.

(** The request yields nothing to read [data] from: the read throws and the
    empty catch block swallows the error. *)
Lemma logOrderDetailsAndNavigate_check_throws (response : Js.value) :
  axios_post env payments_url body0 = Js.Normal response ->
  Js.nullish response = true ->
  logOrderDetailsAndNavigate env props st
  = ([HttpPost payments_url body0], st, Js.Normal tt).
Proof.
  intros Hpost Hn. unfold logOrderDetailsAndNavigate.
  rewrite Hcart, Hbilling, Hconsignments. cbn [List.length Nat.eqb].
  unfold try_catch, post, bind, emit, eval, ret. fold body0. rewrite Hpost.
  unfold Js.get. rewrite Hn. reflexivity.
Qed.

(** The response carries a redirect URL: the browser is sent there. *)
Lemma logOrderDetailsAndNavigate_redirects (response : Js.value) :
  axios_post env payments_url body0 = Js.Normal response ->
  Js.nullish response = false ->
  Js.truthy (redirectUrl_of response) = true ->
  logOrderDetailsAndNavigate env props st
  = ([HttpPost payments_url body0;
      ConsoleLog [Js.Str "Redirecting to payment portal:"; redirectUrl_of response];
      LocationAssign (redirectUrl_of response)],
     st, Js.Normal tt).
Proof.
  intros Hpost Hn Hurl. unfold logOrderDetailsAndNavigate.
  rewrite Hcart, Hbilling, Hconsignments. cbn [List.length Nat.eqb].
  unfold try_catch, post, bind, emit, eval, ret. fold body0. rewrite Hpost.
  unfold redirectUrl_of in Hurl |- *. unfold Js.get at 1. rewrite Hn.
  cbv beta iota zeta.
  destruct (Js.truthy (Js.member response "data")) eqn:Hd.
  - unfold Js.get. rewrite (truthy_not_nullish _ Hd). cbv beta iota zeta.
    rewrite Hurl. reflexivity.
  - congruence.
Qed.

(** The response carries no redirect URL: this is logged and nothing else
    happens. *)
Lemma logOrderDetailsAndNavigate_no_url (response : Js.value) :
  axios_post env payments_url body0 = Js.Normal response ->
  Js.nullish response = false ->
  Js.truthy (redirectUrl_of response) = false ->
  logOrderDetailsAndNavigate env props st
  = ([HttpPost payments_url body0;
      ConsoleError [Js.Str "Unexpected response structure:";
                    Js.member response "data"]],
     st, Js.Normal tt).
Proof.
  intros Hpost Hn Hurl. unfold logOrderDetailsAndNavigate.
  rewrite Hcart, Hbilling, Hconsignments. cbn [List.length Nat.eqb].
  unfold try_catch, post, bind, emit, eval, ret. fold body0. rewrite Hpost.
  unfold redirectUrl_of in Hurl. unfold Js.get at 1. rewrite Hn.
  cbv beta iota zeta.
  destruct (Js.truthy (Js.member response "data")) eqn:Hd.
  - unfold Js.get. rewrite (truthy_not_nullish _ Hd). cbv beta iota zeta.
    rewrite Hurl. reflexivity.
  - cbv beta iota zeta. rewrite Hd. reflexivity.
Qed.

End PlaceOrder.

(** Every run of the handler falls under one of its four outcomes. *)
Lemma logOrderDetailsAndNavigate_cases (env : Checkout.Env)
  (props : Checkout.Props) (st : Checkout.CheckoutState) :
  (order_details_missing props /\
   Checkout.logOrderDetailsAndNavigate env props st
   = ([ConsoleError [Js.Str "Missing order details"]], st, Js.Normal tt)) \/
  exists cart billingAddress consignment consignments,
    Checkout.cart props = Some cart /\
    Checkout.billingAddress props = Some billingAddress /\
    Checkout.consignments props = Some (consignment :: consignments) /\
    let body := Checkout.requestBody env cart billingAddress in
    ((request_or_check_throws env body /\
      Checkout.logOrderDetailsAndNavigate env props st
      = ([HttpPost Checkout.payments_url body], st, Js.Normal tt)) \/
     (exists response,
        Checkout.axios_post env Checkout.payments_url body = Js.Normal response /\
        Js.nullish response = false /\
        ((Js.truthy (redirectUrl_of response) = true /\
          Checkout.logOrderDetailsAndNavigate env props st
          = ([HttpPost Checkout.payments_url body;
              ConsoleLog [Js.Str "Redirecting to payment portal:";
                          redirectUrl_of response];
              LocationAssign (redirectUrl_of response)],
             st, Js.Normal tt)) \/
         (Js.truthy (redirectUrl_of response) = false /\
          Checkout.logOrderDetailsAndNavigate env props st
          = ([HttpPost Checkout.payments_url body;
              ConsoleError [Js.Str "Unexpected response structure:";
                            Js.member response "data"]],
             st, Js.Normal tt))))).
Proof.
  destruct (Checkout.cart props) as [cart|] eqn:Hc;
    [|left; split; [left; exact Hc
                   | apply logOrderDetailsAndNavigate_guard; left; exact Hc]].
  destruct (Checkout.billingAddress props) as [addr|] eqn:Hb;
    [|left; split; [right; left; exact Hb
                   | apply logOrderDetailsAndNavigate_guard; right; left; exact Hb]].
  destruct (Checkout.consignments props) as [[|c cs]|] eqn:Hs.
  - left. split; [do 3 right; exact Hs
                 | apply logOrderDetailsAndNavigate_guard; do 3 right; exact Hs].
  - right. exists cart, addr, c, cs. repeat (split; [reflexivity|]).
    cbv zeta. unfold request_or_check_throws.
    destruct (Checkout.axios_post env Checkout.payments_url
                (Checkout.requestBody env cart addr)) as [response|e] eqn:Hp.
    + destruct (Js.nullish response) eqn:Hn.
      * left. split; [reflexivity|].
        now apply (logOrderDetailsAndNavigate_check_throws env props st
                     cart addr c cs Hc Hb Hs response).
      * right. exists response. split; [reflexivity|]. split; [exact Hn|].
        destruct (Js.truthy (redirectUrl_of response)) eqn:Hu.
        -- left. split; [reflexivity|].
           now apply (logOrderDetailsAndNavigate_redirects env props st
                        cart addr c cs Hc Hb Hs response).
        -- right. split; [reflexivity|].
           now apply (logOrderDetailsAndNavigate_no_url env props st
                        cart addr c cs Hc Hb Hs response).
    + left. split; [exact I|].
      now apply (logOrderDetailsAndNavigate_request_fails env props st
                   cart addr c cs Hc Hb Hs e).
  - left. split; [do 2 right; left; exact Hs
                 | apply logOrderDetailsAndNavigate_guard; do 2 right; left; exact Hs].
Qed.

Ltac no_such_event :=
  let H := fresh in
  intros H; repeat destruct H as [? H]; simpl in H;
  repeat (destruct H as [H | H]; [discriminate H|]); exact H.

(** The handler never touches the component state and never lets an error
    escape. *)
Lemma logOrderDetailsAndNavigate_keeps_state (env : Checkout.Env)
  (props : Checkout.Props) (st : Checkout.CheckoutState) :
  snd (fst (Checkout.logOrderDetailsAndNavigate env props st)) = st /\
  snd (Checkout.logOrderDetailsAndNavigate env props st) = Js.Normal tt.
Proof.
  destruct (logOrderDetailsAndNavigate_cases env props st)
    as [[_ ->] | [cart [addr [c [cs [_ [_ [_ H]]]]]]]]; [split; reflexivity|].
  cbv zeta in H.
  destruct H as [[_ ->] | [response [_ [_ [[_ ->] | [_ ->]]]]]]; split; reflexivity.
Qed.

(** The handler never submits a form. *)
Lemma logOrderDetailsAndNavigate_no_form (env : Checkout.Env)
  (props : Checkout.Props) (st : Checkout.CheckoutState) :
  ~ submits_form (fst (fst (Checkout.logOrderDetailsAndNavigate env props st))).
Proof.
  unfold submits_form.
  destruct (logOrderDetailsAndNavigate_cases env props st)
    as [[_ ->] | [cart [addr [c [cs [_ [_ [_ H]]]]]]]]; [no_such_event|].
  cbv zeta in H.
  destruct H as [[_ ->] | [response [_ [_ [[_ ->] | [_ ->]]]]]]; no_such_event.
Qed.

Lemma redirectUrl_not_nullish (response : Js.value) :
  Js.truthy (redirectUrl_of response) = true -> Js.nullish response = false.
Proof. destruct response; simpl; congruence. Qed.

(** C10.  If [cart], [billingAddress] or [consignments] is undefined, or
    [consignments] is empty, [logOrderDetailsAndNavigate] returns without an
    HTTP request, without changing the component state and without
    navigating; and whenever the payment request fails or the redirect check
    on its result throws, the empty catch block discards the error: nothing
    is logged, the state and with it [state.error] and the error modal stay
    as they were, and no redirect occurs. *)
Theorem logOrderDetailsAndNavigate_fails_quietly :
  forall (env : Checkout.Env) (props : Checkout.Props)
         (st : Checkout.CheckoutState),
    let '(tr, st', r) := Checkout.logOrderDetailsAndNavigate env props st in
    (order_details_missing props ->
     tr = [ConsoleError [Js.Str "Missing order details"]] /\
     st' = st /\ ~ requests tr /\ ~ navigates tr) /\
    (forall cart billingAddress consignment consignments,
       Checkout.cart props = Some cart ->
       Checkout.billingAddress props = Some billingAddress ->
       Checkout.consignments props = Some (consignment :: consignments) ->
       request_or_check_throws env (Checkout.requestBody env cart billingAddress) ->
       tr = [HttpPost Checkout.payments_url
               (Checkout.requestBody env cart billingAddress)] /\
       r = Js.Normal tt /\
       st' = st /\
       Checkout.error st' = Checkout.error st /\
       Checkout.errorModal st' = Checkout.errorModal st /\
       ~ navigates tr).
Proof.
  intros env props st.
  destruct (Checkout.logOrderDetailsAndNavigate env props st) as [[tr st'] r] eqn:E.
  split.
  - intros Hmissing.
    rewrite (logOrderDetailsAndNavigate_guard env props st Hmissing) in E.
    injection E as <- <- <-.
    repeat split; unfold requests, navigates; no_such_event.
  - intros cart addr c cs Hc Hb Hs Hthrows.
    unfold request_or_check_throws in Hthrows.
    destruct (Checkout.axios_post env Checkout.payments_url
                (Checkout.requestBody env cart addr)) as [response|e] eqn:Hp.
    + rewrite (logOrderDetailsAndNavigate_check_throws env props st
                 cart addr c cs Hc Hb Hs response Hp Hthrows) in E.
      injection E as <- <- <-.
      repeat split; unfold navigates; no_such_event.
    + rewrite (logOrderDetailsAndNavigate_request_fails env props st
                 cart addr c cs Hc Hb Hs e Hp) in E.
      injection E as <- <- <-.
      repeat split; unfold navigates; no_such_event.
Qed.

Lemma logOrderDetailsAndNavigate_fails_quietly_witness :
  request_or_check_throws Samples.service_down
    (Checkout.requestBody Samples.service_down Samples.laptop_cart Samples.ada) /\
  Checkout.logOrderDetailsAndNavigate Samples.service_down Samples.laptop_order
    Checkout.initial
  = ([HttpPost Checkout.payments_url
        (Checkout.requestBody Samples.service_down Samples.laptop_cart Samples.ada)],
     Checkout.initial, Js.Normal tt).
Proof.
  split; [exact I|].
  pose proof (logOrderDetailsAndNavigate_fails_quietly Samples.service_down
                Samples.laptop_order Checkout.initial) as H.
  destruct (Checkout.logOrderDetailsAndNavigate Samples.service_down
              Samples.laptop_order Checkout.initial) as [[tr st'] r].
  destruct H as [_ H].
  destruct (H Samples.laptop_cart Samples.ada (Js.Obj []) [] eq_refl eq_refl eq_refl I)
    as [-> [-> [-> _]]].
  reflexivity.
Defined.


(** C1, as the code has it.  When the shopper clicks Place Order, the
    handler never creates or submits a form; whenever [cart],
    [billingAddress] and a non-empty [consignments] list are present it
    first sends the order with an HTTP POST to the payments service, whatever
    the service then answers, and without them it sends nothing; when the
    response data carry a truthy redirect URL the browser is sent to that URL
    by assigning [window.location.href]; in no other case does the browser
    navigate. *)
Theorem placeOrder_redirects_by_location :
  forall (env : Checkout.Env) (props : Checkout.Props)
         (st : Checkout.CheckoutState),
    let '(tr, st', r) := Checkout.placeOrder_onClick env props st in
    ~ submits_form tr /\
    (forall cart billingAddress consignment consignments,
       Checkout.cart props = Some cart ->
       Checkout.billingAddress props = Some billingAddress ->
       Checkout.consignments props = Some (consignment :: consignments) ->
       (exists rest,
          tr = HttpPost Checkout.payments_url
                 (Checkout.requestBody env cart billingAddress) :: rest) /\
       (forall response,
          Checkout.axios_post env Checkout.payments_url
            (Checkout.requestBody env cart billingAddress) = Js.Normal response ->
          Js.truthy (redirectUrl_of response) = true ->
          tr = [HttpPost Checkout.payments_url
                  (Checkout.requestBody env cart billingAddress);
                ConsoleLog [Js.Str "Redirecting to payment portal:";
                            redirectUrl_of response];
                LocationAssign (redirectUrl_of response)])) /\
    (order_details_missing props -> ~ requests tr /\ ~ navigates tr) /\
    (navigates tr ->
     exists cart billingAddress consignment consignments response,
       Checkout.cart props = Some cart /\
       Checkout.billingAddress props = Some billingAddress /\
       Checkout.consignments props = Some (consignment :: consignments) /\
       Checkout.axios_post env Checkout.payments_url
         (Checkout.requestBody env cart billingAddress) = Js.Normal response /\
       Js.truthy (redirectUrl_of response) = true /\
       tr = [HttpPost Checkout.payments_url
               (Checkout.requestBody env cart billingAddress);
             ConsoleLog [Js.Str "Redirecting to payment portal:";
                         redirectUrl_of response];
             LocationAssign (redirectUrl_of response)]).
Proof.
  intros env props st. unfold Checkout.placeOrder_onClick.
  pose proof (logOrderDetailsAndNavigate_no_form env props st) as Hform.
  pose proof (logOrderDetailsAndNavigate_cases env props st) as Hcases.
  pose proof (logOrderDetailsAndNavigate_guard env props st) as Hguard.
  destruct (Checkout.logOrderDetailsAndNavigate env props st) as [[tr st'] r] eqn:E.
  cbn [fst] in Hform.
  split; [exact Hform|]. split; [|split].
  - intros cart addr c cs Hc Hb Hs.
    destruct Hcases as [[Hmiss _] | [cart0 [addr0 [c0 [cs0 [Hc0 [Hb0 [Hs0 H]]]]]]]].
    { exfalso. destruct Hmiss as [H | [H | [H | H]]]; congruence. }
    assert (cart0 = cart) as -> by congruence.
    assert (addr0 = addr) as -> by congruence.
    cbv zeta in H. split.
    + destruct H as [[_ H] | [response [_ [_ [[_ H] | [_ H]]]]]];
        injection H as -> _ _; eexists; reflexivity.
    + intros response Hp Hu.
      rewrite (logOrderDetailsAndNavigate_redirects env props st
                 cart addr c cs Hc Hb Hs response Hp
                 (redirectUrl_not_nullish _ Hu) Hu) in E.
      now injection E as <- _ _.
  - intros Hmiss. specialize (Hguard Hmiss). injection Hguard as -> _ _.
    split; [unfold requests | unfold navigates]; no_such_event.
  - intros Hnav.
    destruct Hcases as [[_ H] | [cart [addr [c [cs [Hc [Hb [Hs H]]]]]]]].
    + injection H as -> _ _. exfalso. revert Hnav. unfold navigates. no_such_event.
    + cbv zeta in H.
      destruct H as [[_ H] | [response [Hp [_ [[Hu H] | [_ H]]]]]].
      * injection H as -> _ _. exfalso. revert Hnav. unfold navigates.
        no_such_event.
      * injection H as -> _ _. exists cart, addr, c, cs, response.
        repeat (split; [assumption|]). reflexivity.
      * injection H as -> _ _. exfalso. revert Hnav. unfold navigates.
        no_such_event.
Qed.

Lemma placeOrder_redirects_by_location_witness :
  fst (fst (Checkout.placeOrder_onClick Samples.portal_answers
              Samples.laptop_order Checkout.initial))
  = [HttpPost Checkout.payments_url
       (Checkout.requestBody Samples.portal_answers Samples.laptop_cart Samples.ada);
     ConsoleLog [Js.Str "Redirecting to payment portal:";
                 Js.Str "https://portal.example/pay"];
     LocationAssign (Js.Str "https://portal.example/pay")].
Proof.
  pose proof (placeOrder_redirects_by_location Samples.portal_answers
                Samples.laptop_order Checkout.initial) as H.
  destruct (Checkout.placeOrder_onClick Samples.portal_answers
              Samples.laptop_order Checkout.initial) as [[tr st'] r].
  destruct H as [_ [H _]].
  exact (proj2 (H Samples.laptop_cart Samples.ada (Js.Obj []) []
                  eq_refl eq_refl eq_refl) _ eq_refl eq_refl).
Defined.


(** C1, against the claim as stated: a click on Place Order that does send
    the browser to the portal does it without any submitted form. *)
Lemma placeOrder_submits_no_form :
  fst (fst (Checkout.placeOrder_onClick Samples.portal_answers
              Samples.laptop_order Checkout.initial))
  = [HttpPost "http://127.0.0.1:3000/api/v1/payments"
       (Checkout.requestBody Samples.portal_answers Samples.laptop_cart Samples.ada);
     ConsoleLog [Js.Str "Redirecting to payment portal:";
                 Js.Str "https://portal.example/pay"];
     LocationAssign (Js.Str "https://portal.example/pay")] /\
  ~ submits_form
      (fst (fst (Checkout.placeOrder_onClick Samples.portal_answers
                   Samples.laptop_order Checkout.initial))).
Proof.
  split; [reflexivity|].
  unfold submits_form. no_such_event.
Qed.

(* ===================================================================== *)
(** * Further properties of the code *)
(* ===================================================================== *)

(** ** The Express router: the other two handlers *)

(** X1.  The auth callback never inspects [code], [scope] or [context]:
    every request that has a query object, whatever it carries, is answered
    with status 200 and the text 'Authorization successful'; the 400 JSON
    answer is reached only when [req.query] itself is null or undefined; in
    both cases the handler answers and does not throw. *)
Theorem auth_callback_accepts_any_query :
  forall (env : Server.Env) (req : Server.Request),
    snd (Server.respond Server.auth_callback env req) = Js.Normal tt /\
    (Js.nullish (Server.query req) = false <->
     fst (Server.respond Server.auth_callback env req)
     = Server.mkResponse 200 (Some (Server.Text "Authorization successful"))) /\
    (Js.nullish (Server.query req) = true <->
     exists msg,
       fst (Server.respond Server.auth_callback env req)
       = Server.mkResponse 400
           (Some (Server.Json (Js.Obj [("error", Js.Str msg)])))).
Proof.
  intros env req.
  unfold Server.respond, Server.auth_callback, Server.try_catch, Server.bind,
    Server.eval, Server.destructure.
  destruct (Js.nullish (Server.query req)); cbn.
  - split; [reflexivity|]. split; split.
    + intros H; discriminate H.
    + intros H; discriminate H.
    + intros _. eexists. reflexivity.
    + reflexivity.
  - split; [reflexivity|]. split; split.
    + reflexivity.
    + reflexivity.
    + intros H; discriminate H.
    + intros [msg H]. discriminate H.
Qed.

(** The test endpoint on a body that carries payment data. *)
Lemma process_payment_test_success (env : Server.Env) (req : Server.Request) :
  Js.nullish (Server.body req) = false ->
  Js.nullish (Js.member (Server.body req) "payment_data") = false ->
  Server.respond Server.process_payment_test env req
  = (Server.mkResponse 200
       (Some (Server.Json
                (success_body (Js.Str ("TEST_" ++ Js.decimal (Server.now env)))
                   (Js.member (Js.member (Server.body req) "payment_data") "amount")
                   (Js.member (Js.member (Server.body req) "payment_data") "currency")
                   (Server.isoNow env)))),
     Js.Normal tt).
Proof.
  intros Hb Hpd.
  unfold Server.respond, Server.process_payment_test, Server.bind, Server.eval,
    Js.get.
  rewrite Hb. cbv beta iota zeta. rewrite Hpd. reflexivity.
Qed.

(** The test endpoint on a body without payment data. *)
Lemma process_payment_test_failure (env : Server.Env) (req : Server.Request) :
  Js.nullish (Server.body req) = true \/
  Js.nullish (Js.member (Server.body req) "payment_data") = true ->
  exists e,
    Server.respond Server.process_payment_test env req
    = (Server.fresh, Js.Throw e) /\ Js.name e = "TypeError".
Proof.
  intros H.
  unfold Server.respond, Server.process_payment_test, Server.bind, Server.eval,
    Js.get.
  destruct (Js.nullish (Server.body req)) eqn:Hb.
  - eexists. split; reflexivity.
  - destruct H as [H | H]; [discriminate|].
    cbv beta iota zeta. rewrite H. eexists. split; reflexivity.
Qed.

(** X2.  The test endpoint answers exactly the requests whose body and whose
    [payment_data] are neither null nor undefined: then it sends status 200
    with the transaction id 'TEST_' followed by the clock reading and echoes
    [amount] and [currency]; on every other request it throws a [TypeError]
    and sends nothing.  [order_id] and the payment provider play no part. *)
Theorem process_payment_test_answers_iff :
  forall (env : Server.Env) (req : Server.Request),
    let payment_data := Js.get_opt (Server.body req) "payment_data" in
    (Js.nullish payment_data = false ->
     Server.respond Server.process_payment_test env req
     = (Server.mkResponse 200
          (Some (Server.Json
                   (success_body (Js.Str ("TEST_" ++ Js.decimal (Server.now env)))
                      (Js.member payment_data "amount")
                      (Js.member payment_data "currency")
                      (Server.isoNow env)))),
        Js.Normal tt)) /\
    (Js.nullish payment_data = true ->
     exists e,
       Server.respond Server.process_payment_test env req
       = (Server.fresh, Js.Throw e) /\ Js.name e = "TypeError").
Proof.
  intros env req payment_data. subst payment_data. unfold Js.get_opt.
  destruct (Js.nullish (Server.body req)) eqn:Hb.
  - split; [discriminate|]. intros _.
    apply process_payment_test_failure. now left.
  - split.
    + intros Hpd. now apply process_payment_test_success.
    + intros Hpd. apply process_payment_test_failure. now right.
Qed.

Lemma process_payment_test_answers_iff_witness :
  Js.nullish (Js.get_opt (Server.body Samples.order_zero) "payment_data") = false /\
  fst (Server.respond Server.process_payment_test Samples.accepting
         Samples.order_zero)
  = Server.mkResponse 200
      (Some (Server.Json
               (success_body (Js.Str "TEST_1700000000000") (Js.Num (inject_Z 10))
                  (Js.Str "USD") "2023-11-14T22:13:20.000Z"))).
Proof.
  split; [reflexivity|].
  rewrite (proj1 (process_payment_test_answers_iff Samples.accepting
                    Samples.order_zero) eq_refl).
  reflexivity.
Defined.

(** X3.  The test endpoint is laxer than the payment endpoint: whenever
    /process-payment answers a request with status 200, /process-payment-test
    answers the same request with status 200 and the same [amount],
    [currency] and [timestamp]; only the transaction id differs. *)
Theorem process_payment_test_accepts_what_payment_accepts :
  forall (env : Server.Env) (req : Server.Request) (payload : option Server.Payload),
    fst (Server.respond Server.process_payment env req)
    = Server.mkResponse 200 payload ->
    exists transaction_id amount currency,
      fst (Server.respond Server.process_payment env req)
      = Server.mkResponse 200
          (Some (Server.Json
                   (success_body transaction_id amount currency (Server.isoNow env)))) /\
      Server.respond Server.process_payment_test env req
      = (Server.mkResponse 200
           (Some (Server.Json
                    (success_body (Js.Str ("TEST_" ++ Js.decimal (Server.now env)))
                       amount currency (Server.isoNow env)))),
         Js.Normal tt).
Proof.
  intros env req payload H200.
  destruct (Js.nullish (Server.body req)) eqn:Hb.
  { destruct (process_payment_no_body env req Hb) as [msg E].
    rewrite E in H200. discriminate. }
  destruct (Js.falsy (Js.get_opt (Server.body req) "payment_data")
            || Js.falsy (Js.get_opt (Server.body req) "order_id")) eqn:Hg.
  { rewrite (process_payment_guard env req Hb Hg) in H200. discriminate. }
  destruct (Server.processPayment env (Js.get_opt (Server.body req) "payment_data"))
    as [transaction|e] eqn:Hp.
  - destruct (Js.nullish transaction) eqn:Hn.
    + destruct (process_payment_no_transaction env req transaction Hg Hp Hn)
        as [msg E]. rewrite E in H200. discriminate.
    + rewrite (process_payment_success env req transaction Hg Hp Hn).
      apply orb_false_elim in Hg as [Hpd _].
      assert (Hnpd : Js.nullish (Js.get_opt (Server.body req) "payment_data") = false).
      { apply truthy_not_nullish. unfold Js.falsy in Hpd.
        now destruct (Js.truthy _). }
      rewrite (get_opt_member _ _ Hb) in *.
      do 3 eexists. split; [reflexivity|].
      now apply process_payment_test_success.
  - rewrite (process_payment_provider_throws env req e Hg Hp) in H200.
    discriminate.
Qed.

Lemma process_payment_test_accepts_what_payment_accepts_witness :
  Server.respond Server.process_payment_test Samples.accepting Samples.order_seven
  = (Server.mkResponse 200
       (Some (Server.Json
                (success_body (Js.Str "TEST_1700000000000") (Js.Num (inject_Z 10))
                   (Js.Str "USD") "2023-11-14T22:13:20.000Z"))),
     Js.Normal tt).
Proof.
  destruct (process_payment_test_accepts_what_payment_accepts Samples.accepting
              Samples.order_seven _ eq_refl)
    as [tid [amount [currency [Hpay Htest]]]].
  injection Hpay as _ <- <-. exact Htest.
Defined.

(** ** [CustomPaymentMethod]: the click listener and the two promises *)

(** X4.  The last click decides: on a page without [#payment-details] the
    click listener throws a [TypeError]; otherwise it stores the value of
    that element, whatever was stored before, touches nothing else of the
    instance, and [validatePayment] afterwards resolves exactly when the
    element holds a non-empty text. *)
Theorem click_decides_validation :
  forall (document : Document) (this : CustomPaymentMethod.t),
    (document "#payment-details" = None ->
     exists e,
       CustomPaymentMethod.onSubmitClick document this = ([], Js.Throw e) /\
       Js.name e = "TypeError") /\
    (forall el,
       document "#payment-details" = Some el ->
       exists tr this',
         CustomPaymentMethod.onSubmitClick document this = (tr, Js.Normal this') /\
         this' = CustomPaymentMethod.set_paymentData (value_of el) this /\
         CustomPaymentMethod.options this' = CustomPaymentMethod.options this /\
         CustomPaymentMethod.clientId this' = CustomPaymentMethod.clientId this /\
         CustomPaymentMethod.method (CustomPaymentMethod.state this')
         = CustomPaymentMethod.method (CustomPaymentMethod.state this) /\
         CustomPaymentMethod.customerId (CustomPaymentMethod.state this')
         = CustomPaymentMethod.customerId (CustomPaymentMethod.state this) /\
         (snd (CustomPaymentMethod.validatePayment this') = Resolved tt <->
          exists s, elem_value el = Some s /\ s <> "")).
Proof.
  intros document this. split.
  - intros Hnone. unfold CustomPaymentMethod.onSubmitClick. rewrite Hnone.
    eexists. split; reflexivity.
  - intros el Hel. unfold CustomPaymentMethod.onSubmitClick. rewrite Hel.
    do 2 eexists. split; [reflexivity|]. split; [reflexivity|].
    repeat (split; [reflexivity|]).
    unfold value_of. destruct (elem_value el) as [s|] eqn:Ev.
    + rewrite (validatePayment_text
                 (CustomPaymentMethod.set_paymentData (Js.Str s) this) s eq_refl).
      split.
      * intros Hne. now exists s.
      * intros [s' [Hs' Hne]]. congruence.
    + rewrite validatePayment_unset by reflexivity.
      split; [discriminate | intros [s [Hs _]]; discriminate].
Qed.

Lemma click_decides_validation_witness :
  Samples.typed_4111 "#payment-details" = Some {| elem_value := Some "4111" |} /\
  snd (CustomPaymentMethod.validatePayment
         (CustomPaymentMethod.set_paymentData (Js.Str "4111")
            (CustomPaymentMethod.new Js.Undefined))) = Resolved tt.
Proof.
  split; [reflexivity|].
  destruct (proj2 (click_decides_validation Samples.typed_4111
                     (CustomPaymentMethod.new Js.Undefined))
              {| elem_value := Some "4111" |} eq_refl)
    as [tr [this' [_ [-> [_ [_ [_ [_ Hiff]]]]]]]].
  apply Hiff. exists "4111". split; [reflexivity | discriminate].
Defined.

(** X5.  On the instances the class itself produces the two promises
    agree: [submitPayment], its timer finding the instance as it was,
    resolves exactly when [validatePayment] resolves, and then with type
    'custom-payment' and the stored payment data; and it rejects with
    'Payment submission failed. No payment data provided.' exactly when
    [validatePayment] rejects. *)
Theorem validate_and_submit_agree :
  forall this : CustomPaymentMethod.t,
    CustomPaymentMethod.Instance this ->
    (snd (CustomPaymentMethod.validatePayment this) = Resolved tt <->
     custom_submitted this
     = Resolved (custom_payload
                   (CustomPaymentMethod.paymentData (CustomPaymentMethod.state this)))) /\
    (snd (CustomPaymentMethod.validatePayment this)
     = Rejected CustomPaymentMethod.validation_failed <->
     custom_submitted this = Rejected CustomPaymentMethod.submission_failed).
Proof.
  intros this Hinst.
  pose proof (Instance_text_or_unset this Hinst) as Hpd.
  pose proof (validatePayment_text this) as Htext.
  pose proof (validatePayment_unset this) as Hunset.
  pose proof (validatePayment_settles this) as Hset.
  unfold custom_submitted. cbn [CustomPaymentMethod.submitPayment
    CustomPaymentMethod.fire snd]. unfold CustomPaymentMethod.submitPayment_onTimeout.
  destruct (CustomPaymentMethod.paymentData (CustomPaymentMethod.state this))
    as [| |b|q| |s|l|fs] eqn:Epd; try contradiction.
  - rewrite Hunset by reflexivity. cbn.
    split; split; intros H; try discriminate H; reflexivity.
  - rewrite Hunset by reflexivity. cbn.
    split; split; intros H; try discriminate H; reflexivity.
  - specialize (Htext s eq_refl).
    destruct (String.eqb_spec s "") as [->|Hne].
    + rewrite Hunset by reflexivity. cbn.
      split; split; intros H; try discriminate H; reflexivity.
    + assert (Ht : Js.truthy (Js.Str s) = true) by now apply truthy_Str.
      rewrite Ht. cbn [snd]. rewrite (proj2 Htext Hne).
      split; split; intros H; try discriminate H; reflexivity.
Qed.

Lemma validate_and_submit_agree_witness :
  CustomPaymentMethod.Instance Samples.custom_4111 /\
  custom_submitted Samples.custom_4111 = Resolved (custom_payload (Js.Str "4111")).
Proof.
  assert (Hinst : CustomPaymentMethod.Instance Samples.custom_4111).
  { eapply (CustomPaymentMethod.Inst_click Samples.typed_4111
              (CustomPaymentMethod.new Js.Undefined)).
    - apply CustomPaymentMethod.Inst_new.
    - reflexivity. }
  split; [exact Hinst|].
  exact (proj1 (proj1 (validate_and_submit_agree Samples.custom_4111 Hinst)) eq_refl).
Defined.

(** ** [DellPaymentMethod]: repeated validation *)

Section DellSequences.
Import DellPaymentMethod.

Lemma validatePayment_complete (document : Document) (this : t) :
  both_entered document = true ->
  validatePayment document this
  = (set_paymentData
       (dell_stored (entered document "#dell-account-number")
                    (entered document "#dell-purchase-order")) this,
     Resolved tt).
Proof.
  unfold both_entered, validatePayment. now intros ->.
Qed.

Lemma validatePayment_incomplete (document : Document) (this : t) :
  both_entered document = false ->
  validatePayment document this = (this, Rejected validation_failed).
Proof.
  unfold both_entered, validatePayment. now intros ->.
Qed.

Lemma validated_snoc (pages : list Document) (page : Document) (this : t) :
  validated (pages ++ [page]) this
  = fst (validatePayment page (validated pages this)).
Proof. unfold validated. now rewrite fold_left_app. Qed.

Lemma Instance_validated (pages : list Document) (this : t) :
  Instance this -> Instance (validated pages this).
Proof.
  revert this. induction pages as [|page pages IH]; intros this Hinst.
  - exact Hinst.
  - apply IH. now apply Inst_validate.
Qed.

Lemma last_complete_snoc (pages : list Document) (page : Document) :
  last_complete (pages ++ [page])
  = if both_entered page then Some page else last_complete pages.
Proof.
  unfold last_complete. rewrite rev_app_distr. reflexivity.
Qed.

End DellSequences.

(** X6.  The last complete page wins: after [validatePayment] has run
    against any sequence of pages, [submitPayment] resolves with the account
    and order number of the last page that had both fields filled in, later
    failed validations notwithstanding; when no page was complete it settles
    as it would have before, which for a new instance is the rejection
    'Payment submission failed. No payment data provided.'. *)
Theorem submit_after_validations :
  forall (pages : list Document) (this : DellPaymentMethod.t),
    DellPaymentMethod.Instance this ->
    DellPaymentMethod.submitPayment (validated pages this)
    = match last_complete pages with
      | Some page =>
          Resolved (dell_payload
                      (DellPaymentMethod.entered page "#dell-account-number")
                      (DellPaymentMethod.entered page "#dell-purchase-order"))
      | None => DellPaymentMethod.submitPayment this
      end.
Proof.
  intros pages this Hinst.
  induction pages as [|page pages IH] using rev_ind.
  - reflexivity.
  - rewrite validated_snoc, last_complete_snoc.
    destruct (both_entered page) eqn:Hb.
    + pose proof (DellPaymentMethod.Inst_validate page _
                    (Instance_validated pages this Hinst)) as Hinst'.
      rewrite (validatePayment_complete page _ Hb) in Hinst' |- *.
      cbn [fst] in Hinst' |- *.
      now apply submitPayment_stored.
    + rewrite (validatePayment_incomplete page _ Hb). exact IH.
Qed.

Lemma submit_after_validations_witness :
  DellPaymentMethod.Instance (DellPaymentMethod.new Js.Undefined) /\
  DellPaymentMethod.submitPayment
    (validated [Samples.dell_form; MoreSamples.dell_blank] (DellPaymentMethod.new Js.Undefined))
  = Resolved (dell_payload (Js.Str "ACC-7") (Js.Str "PO-42")).
Proof.
  split; [apply DellPaymentMethod.Inst_new|].
  exact (submit_after_validations [Samples.dell_form; MoreSamples.dell_blank]
           (DellPaymentMethod.new Js.Undefined)
           (DellPaymentMethod.Inst_new Js.Undefined)).
Defined.

(** X7.  A Dell payload is never half empty: on every instance the class
    produces, [submitPayment] either rejects with 'Payment submission failed.
    No payment data provided.' or resolves with [methodId] 'dell_payment',
    [method] 'dell-payment' and an account number and an order number that
    are both non-empty strings. *)
Theorem dell_payload_never_empty :
  forall this : DellPaymentMethod.t,
    DellPaymentMethod.Instance this ->
    DellPaymentMethod.submitPayment this
    = Rejected (Js.Error "Payment submission failed. No payment data provided.") \/
    exists a p,
      a <> "" /\ p <> "" /\
      DellPaymentMethod.submitPayment this
      = Resolved (dell_payload (Js.Str a) (Js.Str p)).
Proof.
  intros this Hinst.
  destruct (Instance_paymentData this Hinst) as [Hnull | [a [p [Ha [Hp Hpd]]]]].
  - left. apply submitPayment_unset_dell. now rewrite Hnull.
  - right. exists a, p. split; [exact Ha|]. split; [exact Hp|].
    now apply submitPayment_stored.
Qed.

Lemma dell_payload_never_empty_witness :
  DellPaymentMethod.Instance
    (validated [Samples.dell_form] (DellPaymentMethod.new Js.Undefined)) /\
  (DellPaymentMethod.submitPayment
     (validated [Samples.dell_form] (DellPaymentMethod.new Js.Undefined))
   = Rejected (Js.Error "Payment submission failed. No payment data provided.") \/
   exists a p,
     a <> "" /\ p <> "" /\
     DellPaymentMethod.submitPayment
       (validated [Samples.dell_form] (DellPaymentMethod.new Js.Undefined))
     = Resolved (dell_payload (Js.Str a) (Js.Str p))).
Proof.
  assert (Hinst : DellPaymentMethod.Instance
                    (validated [Samples.dell_form]
                       (DellPaymentMethod.new Js.Undefined))).
  { apply Instance_validated. apply DellPaymentMethod.Inst_new. }
  split; [exact Hinst|].
  exact (dell_payload_never_empty _ Hinst).
Defined.

(** ** The Dell payment form on the page *)

Section Page.
Import Dom.

Lemma node_ind_children (P : node -> Prop) :
  (forall tag id value children,
     Forall P children -> P (Node tag id value children)) ->
  forall n, P n.
Proof.
  intros H. fix IH 1. intros [tag id value children]. apply H.
  induction children as [|c r IHr]; constructor; [apply IH | exact IHr].
Qed.

Lemma find_id_Node (i tag : string) (nid value : option string)
  (children : list node) :
  find_id i (Node tag nid value children)
  = if has_id i nid then Some (Node tag nid value children)
    else find_first i children.
Proof.
  simpl. destruct (has_id i nid); [reflexivity|].
  induction children as [|c r IH]; [reflexivity|].
  simpl. destruct (find_id i c); [reflexivity | exact IH].
Qed.

Lemma append_to_Node (i tag : string) (child : node) (nid value : option string)
  (children : list node) :
  append_to i child (Node tag nid value children)
  = if has_id i nid then Some (Node tag nid value (children ++ [child]))
    else option_map (Node tag nid value) (append_first i child children).
Proof.
  simpl. destruct (has_id i nid); [reflexivity|]. f_equal.
  induction children as [|c r IH]; [reflexivity|].
  simpl. destruct (append_to i child c); [reflexivity | now rewrite IH].
Qed.

Lemma find_first_app (i : string) (l l' : list node) :
  find_first i (l ++ l')
  = match find_first i l with
    | Some found => Some found
    | None => find_first i l'
    end.
Proof.
  induction l as [|c r IH]; [reflexivity|].
  simpl. destruct (find_id i c); [reflexivity | exact IH].
Qed.

Lemma find_first_one (i : string) (n : node) : find_first i [n] = find_id i n.
Proof. simpl. now destruct (find_id i n). Qed.

(** [appendChild] finds its container exactly when [querySelector] does. *)
Lemma append_to_None (i : string) (child : node) (n : node) :
  append_to i child n = None <-> find_id i n = None.
Proof.
  induction n as [tag nid value children IH] using node_ind_children.
  rewrite append_to_Node, find_id_Node.
  destruct (has_id i nid); [split; discriminate|].
  induction IH as [|c r Hc _ IHr]; [split; reflexivity|].
  simpl. destruct (append_to i child c) as [c'|] eqn:Ec.
  - destruct (find_id i c) eqn:Ef.
    + split; discriminate.
    + discriminate (proj2 Hc eq_refl).
  - rewrite (proj1 Hc eq_refl).
    destruct (append_first i child r); simpl in *.
    + split; [discriminate|]. intros H. apply IHr in H. discriminate.
    + split; [intros _|reflexivity]. now apply IHr.
Qed.

(** An id that was nowhere on the page is found, after [appendChild], where
    the appended element has it. *)
Lemma find_id_appended (i j : string) (child : node) (n n' : node) :
  find_id j n = None ->
  append_to i child n = Some n' ->
  find_id j n' = find_id j child.
Proof.
  revert n'.
  induction n as [tag nid value children IH] using node_ind_children.
  intros n'. rewrite append_to_Node, find_id_Node.
  destruct (has_id j nid) eqn:Hj; [discriminate|].
  destruct (has_id i nid).
  - intros Hnone H. injection H as <-.
    rewrite find_id_Node, Hj, find_first_app, Hnone. apply find_first_one.
  - intros Hnone H.
    destruct (append_first i child children) as [children'|] eqn:Ea;
      [|discriminate].
    injection H as <-. rewrite find_id_Node, Hj.
    clear Hj. revert children' Ea Hnone.
    induction IH as [|c r Hc _ IHr]; intros children' Ea Hnone; [discriminate|].
    simpl in Ea, Hnone.
    destruct (find_id j c) eqn:Ef; [discriminate|].
    destruct (append_to i child c) as [c'|] eqn:Ec.
    + injection Ea as <-. simpl. rewrite (Hc c' eq_refl eq_refl).
      destruct (find_id j child); [reflexivity | exact Hnone].
    + destruct (append_first i child r) as [r'|]; [|discriminate].
      injection Ea as <-. simpl. rewrite Ef. now apply IHr.
Qed.

(** An id that the appended element does not have is found, after
    [appendChild], on an element with the value it had before. *)
Lemma find_id_elsewhere (i j : string) (child : node) (n n' : node) :
  find_id j child = None ->
  append_to i child n = Some n' ->
  option_map element_of (find_id j n') = option_map element_of (find_id j n).
Proof.
  intros Hchild. revert n'.
  induction n as [tag nid value children IH] using node_ind_children.
  intros n'. rewrite append_to_Node, find_id_Node.
  destruct (has_id i nid).
  - intros H. injection H as <-. rewrite find_id_Node.
    destruct (has_id j nid); [reflexivity|].
    rewrite find_first_app, find_first_one, Hchild.
    now destruct (find_first j children).
  - intros H.
    destruct (append_first i child children) as [children'|] eqn:Ea;
      [|discriminate].
    injection H as <-. rewrite find_id_Node.
    destruct (has_id j nid); [reflexivity|].
    revert children' Ea.
    induction IH as [|c r Hc _ IHr]; intros children' Ea; [discriminate|].
    simpl in Ea.
    destruct (append_to i child c) as [c'|] eqn:Ec.
    + injection Ea as <-. simpl. specialize (Hc c' eq_refl).
      destruct (find_id j c'), (find_id j c); simpl in Hc;
        try discriminate; [exact Hc | reflexivity].
    + destruct (append_first i child r) as [r'|]; [|discriminate].
      injection Ea as <-. simpl.
      destruct (find_id j c); [reflexivity | now apply IHr].
Qed.

End Page.

Lemma querySelector_None (page : Dom.node) (i : string) :
  Dom.querySelector page (String "#"%char i) = None <-> Dom.find_id i page = None.
Proof.
  simpl. destruct (Dom.find_id i page); simpl; split; congruence.
Qed.

Lemma Instance_gateway (this : DellPaymentMethod.t) :
  DellPaymentMethod.Instance this ->
  DellPaymentMethod.gateway (DellPaymentMethod.state this) = "dell_payment_gateway".
Proof.
  induction 1 as [opts | document this _ IH]; [reflexivity|].
  unfold DellPaymentMethod.validatePayment.
  destruct (Js.truthy _ && Js.truthy _); simpl; exact IH.
Qed.

Lemma paymentForm_ids (j : string) :
  j <> "dell-account-number" -> j <> "dell-purchase-order" ->
  Dom.find_id j DellForm.paymentForm = None.
Proof.
  intros Ha Hp.
  assert (Ea : ("dell-account-number" =? j) = false)
    by (apply String.eqb_neq; congruence).
  assert (Ep : ("dell-purchase-order" =? j) = false)
    by (apply String.eqb_neq; congruence).
  unfold DellForm.paymentForm.
  repeat (rewrite find_id_Node; cbn [Dom.has_id find_first]).
  rewrite Ea, Ep. reflexivity.
Qed.

(** X8.  [DellPaymentMethod.initializePayment] needs its container: on a
    page without [#dell-payment-container] it rejects with 'Dell payment
    container not found.' and leaves the page as it was; on a page with one
    it resolves with [methodId] 'dell_payment' and [gateway]
    'dell_payment_gateway', appends the form to the first such container,
    and every id selector other than those of the two new fields finds what
    it found before. *)
Theorem dell_initializePayment_needs_container :
  forall (page : Dom.node) (this : DellPaymentMethod.t),
    DellPaymentMethod.Instance this ->
    let '(_, page', r) := DellForm.initializePayment page this in
    (Dom.querySelector page "#dell-payment-container" = None ->
     r = Rejected (Js.Error "Dell payment container not found.") /\
     page' = page) /\
    (Dom.querySelector page "#dell-payment-container" <> None ->
     r = Resolved (Js.Obj [("methodId", Js.Str "dell_payment");
                           ("gateway", Js.Str "dell_payment_gateway")]) /\
     Dom.append_to "dell-payment-container" DellForm.paymentForm page = Some page' /\
     forall j,
       j <> "dell-account-number" -> j <> "dell-purchase-order" ->
       Dom.querySelector page' (String "#"%char j)
       = Dom.querySelector page (String "#"%char j)).
Proof.
  intros page this Hinst.
  destruct (Instance_constants this Hinst) as [_ Hid].
  pose proof (Instance_gateway this Hinst) as Hgw.
  unfold DellForm.initializePayment.
  destruct (Dom.querySelector page "#dell-payment-container") as [container|] eqn:Eq.
  - split; [discriminate|]. intros _.
    rewrite Hid, Hgw. split; [reflexivity|].
    unfold Dom.appendChild.
    destruct (Dom.append_to "dell-payment-container" DellForm.paymentForm page)
      as [page'|] eqn:Ea.
    + split; [reflexivity|]. intros j Ha Hp.
      apply (find_id_elsewhere "dell-payment-container" j DellForm.paymentForm
               page page' (paymentForm_ids j Ha Hp) Ea).
    + apply append_to_None in Ea. apply querySelector_None in Ea. congruence.
  - split; [|intros H; now contradiction H].
    intros _. split; reflexivity.
Qed.

Lemma dell_initializePayment_needs_container_witness :
  DellPaymentMethod.Instance (DellPaymentMethod.new Js.Undefined) /\
  Dom.querySelector dell_page "#dell-payment-container" <> None /\
  snd (DellForm.initializePayment dell_page (DellPaymentMethod.new Js.Undefined))
  = Resolved (Js.Obj [("methodId", Js.Str "dell_payment");
                      ("gateway", Js.Str "dell_payment_gateway")]).
Proof.
  split; [apply DellPaymentMethod.Inst_new|].
  assert (Hc : Dom.querySelector dell_page "#dell-payment-container" <> None)
    by discriminate.
  split; [exact Hc|].
  pose proof (dell_initializePayment_needs_container dell_page
                (DellPaymentMethod.new Js.Undefined)
                (DellPaymentMethod.Inst_new Js.Undefined)) as H.
  destruct (DellForm.initializePayment dell_page
              (DellPaymentMethod.new Js.Undefined)) as [[tr page'] r].
  destruct H as [_ H]. exact (proj1 (H Hc)).
Defined.

(** X9.  The form starts empty: when [initializePayment] has appended the
    form to a page on which at least one of the two Dell fields was not
    there before, [validatePayment] on the new page rejects with 'Please
    enter both Dell Account Number and PO Number' and stores nothing. *)
Theorem dell_fresh_form_does_not_validate :
  forall (page : Dom.node) (this : DellPaymentMethod.t),
    Dom.querySelector page "#dell-payment-container" <> None ->
    Dom.querySelector page "#dell-account-number" = None \/
    Dom.querySelector page "#dell-purchase-order" = None ->
    let '(_, page', _) := DellForm.initializePayment page this in
    DellPaymentMethod.validatePayment (Dom.querySelector page') this
    = (this, Rejected (Js.Error "Please enter both Dell Account Number and PO Number")).
Proof.
  intros page this Hc Hfields.
  unfold DellForm.initializePayment.
  destruct (Dom.querySelector page "#dell-payment-container") as [container|] eqn:Eq;
    [|now contradiction Hc].
  unfold Dom.appendChild.
  destruct (Dom.append_to "dell-payment-container" DellForm.paymentForm page)
    as [page'|] eqn:Ea.
  - apply validatePayment_incomplete. unfold both_entered, DellPaymentMethod.entered.
    destruct Hfields as [H | H]; apply querySelector_None in H.
    + assert (E : Dom.querySelector page' "#dell-account-number"
                  = Some {| elem_value := Some "" |}).
      { unfold Dom.querySelector.
        now rewrite (find_id_appended _ _ _ _ _ H Ea). }
      rewrite E. reflexivity.
    + assert (E : Dom.querySelector page' "#dell-purchase-order"
                  = Some {| elem_value := Some "" |}).
      { unfold Dom.querySelector.
        now rewrite (find_id_appended _ _ _ _ _ H Ea). }
      rewrite E. apply andb_false_r.
  - apply append_to_None in Ea. apply querySelector_None in Ea. congruence.
Qed.

Lemma dell_fresh_form_does_not_validate_witness :
  Dom.querySelector dell_page "#dell-payment-container" <> None /\
  DellPaymentMethod.validatePayment
    (Dom.querySelector
       (snd (fst (DellForm.initializePayment dell_page
                    (DellPaymentMethod.new Js.Undefined)))))
    (DellPaymentMethod.new Js.Undefined)
  = (DellPaymentMethod.new Js.Undefined,
     Rejected (Js.Error "Please enter both Dell Account Number and PO Number")).
Proof.
  assert (Hc : Dom.querySelector dell_page "#dell-payment-container" <> None)
    by discriminate.
  split; [exact Hc|].
  pose proof (dell_fresh_form_does_not_validate dell_page
                (DellPaymentMethod.new Js.Undefined) Hc (or_introl eq_refl)) as H.
  destruct (DellForm.initializePayment dell_page
              (DellPaymentMethod.new Js.Undefined)) as [[tr page'] r].
  exact H.
Defined.

(** ** The [Checkout] component: where a navigation leaves the state *)

Section Shown.
Import Checkout Handlers.

Lemma has_step_spec (t : CheckoutStepType) (l : list CheckoutStepStatus) :
  has_step t l = false <-> no_step_of_type t l.
Proof.
  unfold has_step. rewrite <- find_type_None.
  destruct (find_type t l); split; congruence.
Qed.

(** Where a plain [navigateToStep] leaves the component. *)
Lemma navigateToStep_plain (props : Props) (t : CheckoutStepType)
  (st : CheckoutState) :
  state_after (navigateToStep props t None) st
  = if has_step t (steps props) && negb (same_type (activeStepType st) t)
    then set_activeStepType t st else st.
Proof.
  unfold state_after.
  destruct (has_step t (steps props)) eqn:Hs.
  - destruct (same_type (activeStepType st) t) eqn:Ea; cbn [andb negb].
    + apply same_type_eq in Ea.
      rewrite navigateToStep_returns_early by (now right). reflexivity.
    + rewrite navigateToStep_moves; [reflexivity | |].
      * intros H. apply has_step_spec in H. congruence.
      * intros H. apply same_type_eq in H. congruence.
  - apply has_step_spec in Hs.
    rewrite navigateToStep_returns_early by (now left). reflexivity.
Qed.

Lemma navigateToStep_plain_active (props : Props) (t : CheckoutStepType)
  (st : CheckoutState) :
  activeStepType (state_after (navigateToStep props t None) st)
  = if has_step t (steps props) then Some t else activeStepType st.
Proof.
  rewrite navigateToStep_plain.
  destruct (has_step t (steps props)); [|reflexivity].
  destruct (same_type (activeStepType st) t) eqn:Ea; cbn [andb negb].
  - now apply same_type_eq.
  - reflexivity.
Qed.


End Shown.

(** How [navigateToNextIncompleteStep] runs, by what [props.steps] marks
    active. *)
Lemma navigateToNextIncompleteStep_runs (props : Checkout.Props)
  (options : option Checkout.NavigateOptions) (st : Checkout.CheckoutState) :
  (none_active (Checkout.steps props) ->
   Checkout.navigateToNextIncompleteStep props options st
   = ([], st, Js.Normal tt)) /\
  (forall i active,
     first_active (Checkout.steps props) i active ->
     exists previous,
       nth_error (Checkout.steps props) (Nat.pred i) = Some previous /\
       Checkout.navigateToNextIncompleteStep props options st
       = (let '(tr, st', r) :=
            Checkout.navigateToStep props (Checkout.type active) options st in
          (TrackStepCompleted (Checkout.type previous) :: tr, st', r))).
Proof.
  split.
  - intros Hnone. unfold Checkout.navigateToNextIncompleteStep.
    rewrite (findIndex_active_none _ Hnone). reflexivity.
  - intros i active Hfirst.
    pose proof (findIndex_active_first _ _ _ Hfirst) as Hidx.
    destruct Hfirst as [Hnth _].
    assert (Hprev : exists previous,
               nth_error (Checkout.steps props) (Nat.pred i) = Some previous).
    { destruct (nth_error (Checkout.steps props) (Nat.pred i)) as [p|] eqn:Ep;
        [now exists p|].
      apply nth_error_None in Ep.
      assert (i < List.length (Checkout.steps props))%nat
        by (apply nth_error_Some; congruence).
      lia. }
    destruct Hprev as [previous Hprev]. exists previous. split; [exact Hprev|].
    unfold Checkout.navigateToNextIncompleteStep. rewrite Hidx.
    destruct (Z.leb_spec 0 (Z.of_nat i)); [|lia].
    rewrite at_index_of_nat, Hnth, max_pred, at_index_of_nat, Hprev.
    unfold Checkout.bind, Checkout.emit.
    destruct (Checkout.navigateToStep props (Checkout.type active) options st)
      as [[tr st'] r]. reflexivity.
Qed.

(** X10.  Editing a step makes it the active one: after
    [handleEditStep(type)], when [props.steps] has a step of that type,
    [activeStepType] is that type whatever it was before and no other field
    of the component state has changed; when [props.steps] has no such step,
    nothing happens: the state is as before and no error is cleared. *)
Theorem handleEditStep_sets_the_active_step :
  forall (props : Checkout.Props) (t : CheckoutStepType)
         (st : Checkout.CheckoutState),
    (has_step t (Checkout.steps props) = true ->
     let st' := state_after (Handlers.handleEditStep props t) st in
     Checkout.activeStepType st' = Some t /\
     Checkout.defaultStepType st' = Checkout.defaultStepType st /\
     same_besides_step_types st st') /\
    (has_step t (Checkout.steps props) = false ->
     Handlers.handleEditStep props t st = ([], st, Js.Normal tt)).
Proof.
  intros props t st. unfold Handlers.handleEditStep. split.
  - intros Hs. cbv zeta.
    pose proof (navigateToStep_plain_active props t st) as Ha.
    rewrite Hs in Ha. split; [exact Ha|].
    rewrite navigateToStep_plain, Hs. unfold same_besides_step_types.
    destruct (negb (Checkout.same_type (Checkout.activeStepType st) t));
      cbn; repeat split.
  - intros Hs. apply has_step_spec in Hs.
    apply navigateToStep_returns_early. now left.
Qed.

Lemma handleEditStep_sets_the_active_step_witness :
  has_step Billing (Checkout.steps Samples.laptop_order) = true /\
  Checkout.activeStepType
    (state_after (Handlers.handleEditStep Samples.laptop_order Billing)
       Checkout.initial) = Some Billing.
Proof.
  split; [reflexivity|].
  exact (proj1 (proj1 (handleEditStep_sets_the_active_step Samples.laptop_order
                         Billing Checkout.initial) eq_refl)).
Defined.



Section Idempotence.
Import Checkout Handlers.

Lemma navigateToStep_completes (props : Props) (t : CheckoutStepType)
  (options : option NavigateOptions) (st : CheckoutState) :
  snd (navigateToStep props t options st) = Js.Normal tt.
Proof.
  destruct (has_step t (steps props)) eqn:Hs.
  - destruct (same_type (activeStepType st) t) eqn:Ea.
    + apply same_type_eq in Ea.
      rewrite navigateToStep_returns_early by (now right). reflexivity.
    + rewrite navigateToStep_moves; [reflexivity | |].
      * intros H. apply has_step_spec in H. congruence.
      * intros H. apply same_type_eq in H. congruence.
  - apply has_step_spec in Hs.
    rewrite navigateToStep_returns_early by (now left). reflexivity.
Qed.

End Idempotence.

(** X12.  Navigating twice is navigating once: when [navigateToStep] is
    called again with the same type and options after the state set by the
    first call has been committed, whatever [props.error] has become in
    between, it leaves the state where the first call put it; and when the
    navigation is not a default one this later call does nothing at all: it
    clears no error. *)
Theorem navigateToStep_twice :
  forall (props props' : Checkout.Props) (t : CheckoutStepType)
         (options : option Checkout.NavigateOptions) (st : Checkout.CheckoutState),
    Checkout.steps props' = Checkout.steps props ->
    let committed := state_after (Checkout.navigateToStep props t options) st in
    state_after (Checkout.navigateToStep props' t options) committed = committed /\
    (Checkout.wants_default options = false ->
     Checkout.navigateToStep props' t options committed
     = ([], committed, Js.Normal tt)).
Proof.
  intros props props' t options st Hsteps committed. subst committed.
  unfold state_after.
  destruct (has_step t (Checkout.steps props)) eqn:Hs.
  - assert (Hstep : ~ no_step_of_type t (Checkout.steps props)).
    { intros H. apply has_step_spec in H. congruence. }
    assert (Hstep' : ~ no_step_of_type t (Checkout.steps props'))
      by now rewrite Hsteps.
    destruct (Checkout.same_type (Checkout.activeStepType st) t) eqn:Ea.
    + apply same_type_eq in Ea.
      rewrite (navigateToStep_returns_early props t options st) by (now right).
      cbn [fst snd].
      rewrite (navigateToStep_returns_early props' t options st) by (now right).
      split; reflexivity.
    + assert (Hact : Checkout.activeStepType st <> Some t).
      { intros H. apply same_type_eq in H. congruence. }
      rewrite (navigateToStep_moves props t options st Hstep Hact). cbn [fst snd].
      destruct (Checkout.wants_default options) eqn:Hd.
      * rewrite navigateToStep_moves; [|exact Hstep'|exact Hact].
        rewrite Hd. cbn [fst snd]. split; [reflexivity | discriminate].
      * rewrite navigateToStep_returns_early by (now right).
        split; reflexivity.
  - apply has_step_spec in Hs.
    assert (Hs' : no_step_of_type t (Checkout.steps props')) by now rewrite Hsteps.
    rewrite (navigateToStep_returns_early props t options st) by (now left).
    cbn [fst snd].
    rewrite (navigateToStep_returns_early props' t options st) by (now left).
    split; reflexivity.
Qed.

Lemma navigateToStep_twice_witness :
  Checkout.navigateToStep Samples.laptop_order Billing None
    (state_after (Checkout.navigateToStep Samples.laptop_order Billing None)
       Checkout.initial)
  = ([], state_after (Checkout.navigateToStep Samples.laptop_order Billing None)
           Checkout.initial, Js.Normal tt).
Proof.
  exact (proj2 (navigateToStep_twice Samples.laptop_order Samples.laptop_order
                  Billing None Checkout.initial eq_refl) eq_refl).
Defined.

(** ** The [Checkout] component: shipping options that expire *)

Section Consignments.
Import Checkout Handlers.

(** How [handleConsignmentsUpdated] runs. *)
Lemma handleConsignmentsUpdated_runs (props : Props)
  (newHasSelectedShippingOptions : bool) (expired : Js.error) (st : CheckoutState) :
  handleConsignmentsUpdated props newHasSelectedShippingOptions expired st
  = if options_expired props st newHasSelectedShippingOptions
    then (trace_of (navigateToStep props Shipping None) st,
          set_hasSelectedShippingOptions newHasSelectedShippingOptions
            (set_error (Some expired)
               (state_after (navigateToStep props Shipping None) st)),
          Js.Normal tt)
    else ([], set_hasSelectedShippingOptions newHasSelectedShippingOptions st,
          Js.Normal tt).
Proof.
  unfold handleConsignmentsUpdated, options_expired, trace_of, state_after.
  unfold bind at 1. unfold getState at 1. cbv beta iota zeta.
  destruct (hasSelectedShippingOptions st && negb newHasSelectedShippingOptions
            && isShippingStepFinished props st).
  - pose proof (navigateToStep_completes props Shipping None st) as Hr.
    unfold bind, setState.
    destruct (navigateToStep props Shipping None st) as [[tr st'] r].
    cbn [snd] in Hr. subst r. cbn. now rewrite !app_nil_r.
  - reflexivity.
Qed.

Lemma findIndex_range (p : CheckoutStepStatus -> bool) (l : list CheckoutStepStatus) :
  (-1 <= findIndex p l)%Z.
Proof.
  induction l as [|s r IH]; simpl; [lia|].
  destruct (p s); [lia|].
  destruct (Z.ltb_spec (findIndex p r) 0); lia.
Qed.

End Consignments.

(** X13.  Expired shipping options send the shopper back: when the shopper
    had selected shipping options, an update reports that none is selected
    any more and the shipping step counts as finished, then
    [handleConsignmentsUpdated] records the loss, sets [state.error] to the
    [ShippingOptionExpiredError] (so the error modal shows it) and makes
    Shipping the active step; when [props.steps] has no shipping step the
    error is raised all the same and the active step stays.  The default step
    type and the other flags are untouched. *)
Theorem expired_options_send_back_to_shipping :
  forall (props : Checkout.Props) (expired : Js.error) (st : Checkout.CheckoutState),
    Checkout.hasSelectedShippingOptions st = true ->
    Handlers.isShippingStepFinished props st = true ->
    let st' := state_after (Handlers.handleConsignmentsUpdated props false expired) st in
    Checkout.error st' = Some expired /\
    Checkout.errorModal st' = Some expired /\
    Checkout.hasSelectedShippingOptions st' = false /\
    Checkout.activeStepType st'
    = (if has_step Shipping (Checkout.steps props) then Some Shipping
       else Checkout.activeStepType st) /\
    Checkout.defaultStepType st' = Checkout.defaultStepType st /\
    Checkout.isBillingSameAsShipping st' = Checkout.isBillingSameAsShipping st /\
    Checkout.isMultiShippingMode st' = Checkout.isMultiShippingMode st /\
    Checkout.isCartEmpty st' = Checkout.isCartEmpty st /\
    Checkout.isRedirecting st' = Checkout.isRedirecting st /\
    Checkout.isSubscribed st' = Checkout.isSubscribed st.
Proof.
  intros props expired st Hprev Hfin st'.
  assert (E : st' = Handlers.set_hasSelectedShippingOptions false
                      (Handlers.set_error (Some expired)
                         (state_after
                            (Checkout.navigateToStep props Shipping None) st))).
  { subst st'. unfold state_after at 1. rewrite handleConsignmentsUpdated_runs.
    unfold options_expired. now rewrite Hprev, Hfin. }
  rewrite E. clear E st'.
  pose proof (navigateToStep_plain_active props Shipping st) as Hact.
  split; [reflexivity|]. split; [reflexivity|]. split; [reflexivity|].
  split; [exact Hact|].
  rewrite navigateToStep_plain.
  destruct (has_step Shipping (Checkout.steps props)
            && negb (Checkout.same_type (Checkout.activeStepType st) Shipping));
    repeat split.
Qed.

Lemma expired_options_send_back_to_shipping_witness :
  Checkout.hasSelectedShippingOptions
    (Handlers.set_hasSelectedShippingOptions true
       (Checkout.set_activeStepType Payment Checkout.initial)) = true /\
  Handlers.isShippingStepFinished Samples.laptop_order
    (Handlers.set_hasSelectedShippingOptions true
       (Checkout.set_activeStepType Payment Checkout.initial)) = true /\
  Checkout.activeStepType
    (state_after
       (Handlers.handleConsignmentsUpdated Samples.laptop_order false
          (Js.Error "Shipping option expired"))
       (Handlers.set_hasSelectedShippingOptions true
          (Checkout.set_activeStepType Payment Checkout.initial)))
  = Some Shipping.
Proof.
  split; [reflexivity|]. split; [reflexivity|].
  exact (proj1 (proj2 (proj2 (proj2
           (expired_options_send_back_to_shipping Samples.laptop_order
              (Js.Error "Shipping option expired")
              (Handlers.set_hasSelectedShippingOptions true
                 (Checkout.set_activeStepType Payment Checkout.initial))
              eq_refl eq_refl))))).
Defined.

(** X14.  No false alarm: when the shopper had no shipping options selected,
    or the update still reports a selection, or the active step is the
    shipping step or one listed before it, [handleConsignmentsUpdated] only
    records the new flag: no error is set, no step changes and nothing else
    happens. *)
Theorem consignments_update_only_records :
  forall (props : Checkout.Props) (newHasSelectedShippingOptions : bool)
         (expired : Js.error) (st : Checkout.CheckoutState),
    Checkout.hasSelectedShippingOptions st = false \/
    newHasSelectedShippingOptions = true \/
    (exists a,
       Checkout.activeStepType st = Some a /\
       (Handlers.findIndex (Handlers.of_type (Some a)) (Checkout.steps props)
        <= Handlers.findIndex (Handlers.of_type (Some Shipping)) (Checkout.steps props))%Z) ->
    Handlers.handleConsignmentsUpdated props newHasSelectedShippingOptions expired st
    = ([],
       Handlers.set_hasSelectedShippingOptions newHasSelectedShippingOptions st,
       Js.Normal tt).
Proof.
  intros props new expired st H.
  rewrite handleConsignmentsUpdated_runs.
  assert (Hno : options_expired props st new = false).
  { unfold options_expired. destruct H as [H | [H | [a [Ha Hle]]]].
    - now rewrite H.
    - rewrite H. apply andb_false_intro1, andb_false_r.
    - unfold Handlers.isShippingStepFinished. rewrite Ha, orb_false_r.
      destruct (Z.ltb_spec
                  (Handlers.findIndex (Handlers.of_type (Some Shipping))
                     (Checkout.steps props))
                  (Handlers.findIndex (Handlers.of_type (Some a))
                     (Checkout.steps props))); [lia|].
      apply andb_false_r. }
  now rewrite Hno.
Qed.

Lemma consignments_update_only_records_witness :
  Handlers.handleConsignmentsUpdated Samples.laptop_order false
    (Js.Error "Shipping option expired")
    (Handlers.set_hasSelectedShippingOptions true
       (Checkout.set_activeStepType Shipping Checkout.initial))
  = ([],
     Handlers.set_hasSelectedShippingOptions false
       (Handlers.set_hasSelectedShippingOptions true
          (Checkout.set_activeStepType Shipping Checkout.initial)),
     Js.Normal tt).
Proof.
  apply consignments_update_only_records.
  right. right. exists Shipping. split; [reflexivity|].
  cbv. discriminate.
Defined.

(** ** The [Checkout] component: the smaller handlers *)

(** X16.  [handleShippingNextStep] always records the choice in
    [isBillingSameAsShipping]; with the choice false it makes Billing the
    active step whenever [props.steps] has a billing step, and with the
    choice true it goes on as [navigateToNextIncompleteStep] does from the
    state that holds the choice. *)
Theorem handleShippingNextStep_records_choice :
  forall (props : Checkout.Props) (choice : bool) (st : Checkout.CheckoutState),
    let st' := state_after (Handlers.handleShippingNextStep props choice) st in
    Checkout.isBillingSameAsShipping st' = choice /\
    (choice = false ->
     Checkout.activeStepType st'
     = (if has_step Billing (Checkout.steps props) then Some Billing
        else Checkout.activeStepType st)) /\
    (choice = true ->
     Handlers.handleShippingNextStep props choice st
     = Checkout.navigateToNextIncompleteStep props None
         (Handlers.set_isBillingSameAsShipping true st)).
Proof.
  intros props choice st st'. subst st'.
  assert (Hnav : forall t,
             Checkout.isBillingSameAsShipping
               (state_after (Checkout.navigateToStep props t None)
                  (Handlers.set_isBillingSameAsShipping choice st)) = choice).
  { intros t. rewrite navigateToStep_plain.
    destruct (has_step t (Checkout.steps props) && negb _); reflexivity. }
  destruct choice.
  - assert (E : Handlers.handleShippingNextStep props true st
                = Checkout.navigateToNextIncompleteStep props None
                    (Handlers.set_isBillingSameAsShipping true st)).
    { unfold Handlers.handleShippingNextStep, Checkout.bind, Checkout.setState.
      destruct (Checkout.navigateToNextIncompleteStep props None
                  (Handlers.set_isBillingSameAsShipping true st)) as [[tr st'] r].
      now destruct r. }
    split; [|split; [discriminate | intros _; exact E]].
    unfold state_after. rewrite E.
    destruct (none_or_first_active (Checkout.steps props))
      as [Hnone | [i [active Hf]]].
    + rewrite (proj1 (navigateToNextIncompleteStep_runs props None _) Hnone).
      reflexivity.
    + destruct (proj2 (navigateToNextIncompleteStep_runs props None
                         (Handlers.set_isBillingSameAsShipping true st))
                  i active Hf) as [previous [_ ->]].
      specialize (Hnav (Checkout.type active)). unfold state_after in Hnav.
      destruct (Checkout.navigateToStep props (Checkout.type active) None
                  (Handlers.set_isBillingSameAsShipping true st))
        as [[tr st'] r]. exact Hnav.
  - assert (E : state_after (Handlers.handleShippingNextStep props false) st
                = state_after (Checkout.navigateToStep props Billing None)
                    (Handlers.set_isBillingSameAsShipping false st)).
    { unfold state_after, Handlers.handleShippingNextStep, Checkout.bind,
        Checkout.setState.
      destruct (Checkout.navigateToStep props Billing None
                  (Handlers.set_isBillingSameAsShipping false st))
        as [[tr st'] r]. reflexivity. }
    rewrite E. split; [apply Hnav|]. split; [|discriminate].
    intros _. rewrite navigateToStep_plain_active.
    now destruct (has_step Billing (Checkout.steps props)).
Qed.

Lemma handleShippingNextStep_records_choice_witness :
  Checkout.activeStepType
    (state_after (Handlers.handleShippingNextStep Samples.laptop_order false)
       Checkout.initial) = Some Billing.
Proof.
  exact (proj1 (proj2 (handleShippingNextStep_records_choice Samples.laptop_order
                         false Checkout.initial)) eq_refl).
Defined.

(** ** The [Checkout] component: errors *)

(** X17.  [handleUnhandledError] always ends with the error in [state.error],
    so the error modal shows it.  A [CartChangedError] is neither logged nor
    posted to the embedding page: it makes Shipping the active step (when
    [props.steps] has one).  Every other error is logged once, posted to the
    embedding page exactly when there is an embedded messenger, and moves no
    step. *)
Theorem handleUnhandledError_shows_the_error :
  forall (this : Handlers.Instance) (props : Checkout.Props) (error : Js.error)
         (st : Checkout.CheckoutState),
    let '(tr, st', r) := Handlers.handleUnhandledError this props error st in
    r = Js.Normal tt /\
    Checkout.error st' = Some error /\
    Checkout.errorModal st' = Some error /\
    (Handlers.isCartChangedError this error = true ->
     (forall e, ~ In (Handlers.ErrorLogged e) tr) /\
     (forall e, ~ In (Handlers.ErrorPosted e) tr) /\
     Checkout.activeStepType st'
     = (if has_step Shipping (Checkout.steps props) then Some Shipping
        else Checkout.activeStepType st)) /\
    (Handlers.isCartChangedError this error = false ->
     tr = (Handlers.ErrorLogged error
           :: (if Handlers.embeddedMessenger this
               then [Handlers.ErrorPosted error] else []))%list /\
     Checkout.activeStepType st' = Checkout.activeStepType st /\
     Checkout.defaultStepType st' = Checkout.defaultStepType st).
Proof.
  intros this props error st.
  unfold Handlers.handleUnhandledError, Handlers.handleError.
  destruct (Handlers.isCartChangedError this error).
  - unfold Handlers.navigation, Handlers.handleCartChangedError.
    pose proof (navigateToStep_completes props Shipping None st) as Hr.
    pose proof (navigateToStep_plain_active props Shipping st) as Hact.
    unfold state_after in Hact.
    destruct (Checkout.navigateToStep props Shipping None st) as [[tr st'] r].
    cbn [fst snd] in Hr, Hact. subst r.
    split; [reflexivity|]. split; [reflexivity|]. split; [reflexivity|].
    split; [|discriminate]. intros _.
    split; [|split; [|exact Hact]].
    + intros e Hin. apply in_map_iff in Hin as [x [Hx _]]. discriminate.
    + intros e Hin. apply in_map_iff in Hin as [x [Hx _]]. discriminate.
  - split; [reflexivity|]. split; [reflexivity|]. split; [reflexivity|].
    split; [discriminate|]. intros _. repeat split.
Qed.

(** [handleError] completes and keeps [state.error]. *)
Lemma handleError_keeps_error (this : Handlers.Instance)
  (props : Checkout.Props) (error : Js.error) (st : Checkout.CheckoutState) :
  let '(_, st', r) := Handlers.handleError this props error st in
  r = Js.Normal tt /\ Checkout.error st' = Checkout.error st.
Proof.
  unfold Handlers.handleError.
  destruct (Handlers.isCartChangedError this error).
  - unfold Handlers.navigation, Handlers.handleCartChangedError.
    pose proof (navigateToStep_completes props Shipping None st) as Hr.
    pose proof (navigateToStep_plain props Shipping st) as Hst.
    unfold state_after in Hst.
    destruct (Checkout.navigateToStep props Shipping None st) as [[tr st'] r].
    cbn [fst snd] in Hr, Hst. subst r st'.
    split; [reflexivity|].
    now destruct (has_step Shipping (Checkout.steps props) && negb _).
  - split; reflexivity.
Qed.

(** X18.  [handleError] alone never opens the error modal: whatever the
    error, [state.error] is as before; an error other than a
    [CartChangedError] leaves the whole component state as it was. *)
Theorem handleError_shows_no_modal :
  forall (this : Handlers.Instance) (props : Checkout.Props) (error : Js.error)
         (st : Checkout.CheckoutState),
    let '(_, st', r) := Handlers.handleError this props error st in
    r = Js.Normal tt /\
    Checkout.error st' = Checkout.error st /\
    Checkout.errorModal st' = Checkout.errorModal st /\
    (Handlers.isCartChangedError this error = false -> st' = st).
Proof.
  intros this props error st. unfold Handlers.handleError.
  destruct (Handlers.isCartChangedError this error).
  - unfold Handlers.navigation, Handlers.handleCartChangedError.
    pose proof (navigateToStep_completes props Shipping None st) as Hr.
    pose proof (navigateToStep_plain props Shipping st) as Hst.
    unfold state_after in Hst.
    destruct (Checkout.navigateToStep props Shipping None st) as [[tr st'] r].
    cbn [fst snd] in Hr, Hst. subst r st'.
    split; [reflexivity|].
    destruct (has_step Shipping (Checkout.steps props) && negb _);
      repeat split; discriminate.
  - repeat split.
Qed.

(** ** The [Checkout] component: Place Order, in every case *)

Lemma complete_not_missing (props : Checkout.Props) cart billingAddress
  consignment consignments :
  Checkout.cart props = Some cart ->
  Checkout.billingAddress props = Some billingAddress ->
  Checkout.consignments props = Some (consignment :: consignments) ->
  ~ order_details_missing props.
Proof.
  intros Hc Hb Hs [H | [H | [H | H]]]; congruence.
Qed.

(** X19.  Place Order, whatever happens: [logOrderDetailsAndNavigate] never
    changes the component state and never lets an error escape; it sends a
    request exactly when the order details are all there, and then only to
    the payments service; and it never navigates without having sent the
    request first. *)
Theorem logOrderDetailsAndNavigate_in_every_case :
  forall (env : Checkout.Env) (props : Checkout.Props)
         (st : Checkout.CheckoutState),
    let '(tr, st', r) := Checkout.logOrderDetailsAndNavigate env props st in
    st' = st /\
    r = Js.Normal tt /\
    (requests tr <-> ~ order_details_missing props) /\
    (forall url body, In (HttpPost url body) tr ->
                      url = "http://127.0.0.1:3000/api/v1/payments") /\
    (forall href, In (LocationAssign href) tr ->
                  exists body l, tr = HttpPost Checkout.payments_url body :: l).
Proof.
  intros env props st.
  destruct (logOrderDetailsAndNavigate_cases env props st)
    as [[Hmiss ->] | [cart [addr [c [cs [Hc [Hb [Hs H]]]]]]]].
  - split; [reflexivity|]. split; [reflexivity|]. split; [|split].
    + split; [|intros H; contradiction].
      intros Hreq. exfalso. revert Hreq. unfold requests. no_such_event.
    + intros url body [H | []]. discriminate H.
    + intros href [H | []]. discriminate H.
  - pose proof (complete_not_missing props cart addr c cs Hc Hb Hs) as Hok.
    cbv zeta in H.
    destruct H as [[_ ->] | [response [_ [_ [[_ ->] | [_ ->]]]]]];
      (split; [reflexivity|]); (split; [reflexivity|]); (split; [|split]).
    all: try (split; [intros _; exact Hok
                     | intros _; do 2 eexists; left; reflexivity]).
    all: try (intros url body Hin; simpl in Hin;
              repeat (destruct Hin as [Hin | Hin];
                      [try discriminate Hin; now injection Hin as <- _|]);
              contradiction).
    all: intros href Hin; do 2 eexists; reflexivity.
Qed.

Lemma set_error_same (st : Checkout.CheckoutState) :
  Handlers.set_error (Checkout.error st) st = st.
Proof. now destruct st. Qed.

(** X20.  Closing the modal undoes what [handleUnhandledError] added: on a
    component without a pending error, [handleUnhandledError] followed by
    [handleCloseErrorModal] leaves the state that [handleError] alone would
    have left, with no error in it. *)
Theorem close_after_unhandled_error :
  forall (this : Handlers.Instance) (props : Checkout.Props) (error : Js.error)
         (st : Checkout.CheckoutState),
    Checkout.error st = None ->
    state_after Handlers.handleCloseErrorModal
      (snd (fst (Handlers.handleUnhandledError this props error st)))
    = snd (fst (Handlers.handleError this props error st)) /\
    Checkout.errorModal
      (state_after Handlers.handleCloseErrorModal
         (snd (fst (Handlers.handleUnhandledError this props error st)))) = None.
Proof.
  intros this props error st Hnone.
  pose proof (handleError_keeps_error this props error st) as H.
  unfold Handlers.handleUnhandledError.
  destruct (Handlers.handleError this props error st) as [[tr st'] r].
  destruct H as [-> Herr]. cbn [fst snd]. unfold state_after. cbn [fst snd].
  rewrite Hnone in Herr.
  assert (E : Handlers.set_error None (Handlers.set_error (Some error) st') = st').
  { rewrite <- (set_error_same st') at 2. now rewrite Herr. }
  unfold Handlers.handleCloseErrorModal, Checkout.setState. cbn [fst snd].
  rewrite E. split; [reflexivity|]. exact Herr.
Qed.

Lemma close_after_unhandled_error_witness :
  Checkout.error Checkout.initial = None /\
  state_after Handlers.handleCloseErrorModal
    (snd (fst (Handlers.handleUnhandledError
                 (Handlers.mkInstance (fun _ => false) true) Samples.laptop_order
                 (Js.Error "boom") Checkout.initial)))
  = Checkout.initial.
Proof.
  split; [reflexivity|].
  exact (proj1 (close_after_unhandled_error
                  (Handlers.mkInstance (fun _ => false) true) Samples.laptop_order
                  (Js.Error "boom") Checkout.initial eq_refl)).
Defined.

(** X21.  [navigateToNextIncompleteStep] follows [props.steps]: called
    without options while some step is marked active, it completes one step
    for the analytics, as the first thing it does and only once, and leaves
    the type of the first step marked active as the component's
    [activeStepType]. *)
Theorem navigateToNextIncompleteStep_follows_props :
  forall (props : Checkout.Props) (st : Checkout.CheckoutState)
         (i : nat) (active : Checkout.CheckoutStepStatus),
    first_active (Checkout.steps props) i active ->
    let '(tr, st', r) := Checkout.navigateToNextIncompleteStep props None st in
    r = Js.Normal tt /\
    Checkout.activeStepType st' = Some (Checkout.type active) /\
    exists previous rest,
      nth_error (Checkout.steps props) (Nat.pred i) = Some previous /\
      tr = TrackStepCompleted (Checkout.type previous) :: rest /\
      forall t, ~ In (TrackStepCompleted t) rest.
Proof.
  intros props st i active Hf.
  destruct (proj2 (navigateToNextIncompleteStep_runs props None st) i active Hf)
    as [previous [Hprev ->]].
  assert (Hs : has_step (Checkout.type active) (Checkout.steps props) = true).
  { destruct (has_step _ _) eqn:E; [reflexivity|].
    apply has_step_spec in E. destruct Hf as [Hnth _].
    apply nth_error_In in Hnth. now apply E in Hnth. }
  pose proof (navigateToStep_completes props (Checkout.type active) None st) as Hr.
  pose proof (navigateToStep_plain_active props (Checkout.type active) st) as Hact.
  rewrite Hs in Hact. unfold state_after in Hact.
  assert (Htr : forall t,
             ~ In (TrackStepCompleted t)
                 (trace_of (Checkout.navigateToStep props (Checkout.type active) None)
                    st)).
  { intros t. unfold trace_of.
    destruct (Checkout.same_type (Checkout.activeStepType st) (Checkout.type active))
      eqn:Ea.
    - apply same_type_eq in Ea.
      rewrite navigateToStep_returns_early by (now right). intros [].
    - rewrite navigateToStep_moves.
      + cbn [fst]. destruct (Checkout.props_error props); [|intros []].
        intros [H | []]. discriminate H.
      + intros H. apply has_step_spec in H. congruence.
      + intros H. apply same_type_eq in H. congruence. }
  unfold trace_of in Htr.
  destruct (Checkout.navigateToStep props (Checkout.type active) None st)
    as [[tr st'] r]. cbn [fst snd] in *.
  split; [exact Hr|]. split; [exact Hact|].
  exists previous, tr. auto.
Qed.

Lemma navigateToNextIncompleteStep_follows_props_witness :
  first_active (Checkout.steps Samples.laptop_order) 3 (Checkout.mkStep Payment true) /\
  Checkout.activeStepType
    (state_after (Checkout.navigateToNextIncompleteStep Samples.laptop_order None)
       Checkout.initial) = Some Payment /\
  trace_of (Checkout.navigateToNextIncompleteStep Samples.laptop_order None)
    Checkout.initial = [TrackStepCompleted Billing].
Proof.
  assert (Hf : first_active (Checkout.steps Samples.laptop_order) 3
                 (Checkout.mkStep Payment true)).
  { split; [reflexivity|]. split; [reflexivity|].
    intros j s' Hj Hs'. simpl in Hs'.
    destruct j as [|[|[|j]]]; try (now injection Hs' as <-). lia. }
  split; [exact Hf|].
  pose proof (navigateToNextIncompleteStep_follows_props Samples.laptop_order
                Checkout.initial 3 _ Hf) as H.
  unfold state_after, trace_of.
  destruct (Checkout.navigateToNextIncompleteStep Samples.laptop_order None
              Checkout.initial) as [[tr st'] r] eqn:E.
  destruct H as [_ [Hact _]]. split; [exact Hact|].
  cbv in E. now injection E as <- _ _.
Defined.
